(** * enum: symbolic constants with reverse lookup, labels and metadata

    A shallow embedding of [enum/__init__.py] (Python 2): the metaclass
    [MetaEnum], whose [__init__] builds the registry [_item_dict] of a
    class when the class is declared, the record [EnumItem], and the
    class methods of [Enum] that read the registry.

    Conventions of the embedding.
    - Python values that can be keys, labels and arguments are [pyval]:
      [None], booleans, integers, byte strings and tuples of those (the
      hashable values without identity).
    - A [dict] is an association list in iteration order.  [dict_set]
      replaces the value of a key that is present and appends a new key
      at the end; the order CPython 2 gives a dict depends on hashes and
      is not modelled, so the general statements below hold for every
      order of the list.
    - A call either returns or raises: [result A] is [Ok a] or
      [Raise e].
    - The methods that read [cls._item_dict] only are functions of the
      registry.  The methods that call another method through [cls]
      ([max_length], [get], [next_available_key], [random],
      [rest_as_json]) are functions of the class, [pyclass], which has
      the registry and the attributes of the class by name: line 44
      makes every entry a class attribute, which can hide a method. *)

From Stdlib Require Import ZArith List String Ascii Bool Lia Permutation Sorted.
From Stdlib Require Import DecimalString.
Import ListNotations.
Open Scope string_scope.
Open Scope Z_scope.

Set Implicit Arguments.

(** ** Python values *)

#[warnings="-register-all"]
Inductive pyval : Type :=
| VNone
| VBool (b : bool)
| VInt (z : Z)
| VStr (s : string)
| VTuple (l : list pyval).

(** Induction over values that also gives the hypothesis for every
    element of a tuple. *)
Fixpoint pyval_rect' (P : pyval -> Type)
    (HNone : P VNone) (HBool : forall b, P (VBool b))
    (HInt : forall z, P (VInt z)) (HStr : forall s, P (VStr s))
    (HTuple : forall l, (forall n v, nth_error l n = Some v -> P v) -> P (VTuple l))
    (v : pyval) {struct v} : P v.
Proof.
  destruct v as [| b | z | s | l].
  - exact HNone.
  - exact (HBool b).
  - exact (HInt z).
  - exact (HStr s).
  - apply HTuple.
    induction l as [| x l IHl]; intros n v H.
    + destruct n; discriminate H.
    + destruct n as [| n]; simpl in H.
      * injection H as <-. exact (pyval_rect' P HNone HBool HInt HStr HTuple x).
      * exact (IHl n v H).
Defined.

(** [bool] is a subclass of [int]: [True == 1] and [False == 0]. *)
Definition num_of (v : pyval) : option Z :=
  match v with
  | VBool true => Some 1
  | VBool false => Some 0
  | VInt z => Some z
  | _ => None
  end.

(** [a == b]. *)
Fixpoint py_eq (a b : pyval) {struct a} : bool :=
  match a, b with
  | VNone, VNone => true
  | VStr s, VStr t => String.eqb s t
  | VTuple l, VTuple m =>
      (fix all2 (l m : list pyval) {struct l} : bool :=
         match l, m with
         | [], [] => true
         | x :: l', y :: m' => py_eq x y && all2 l' m'
         | _, _ => false
         end) l m
  | (VBool _ | VInt _), (VBool _ | VInt _) =>
      match num_of a, num_of b with
      | Some x, Some y => Z.eqb x y
      | _, _ => false
      end
  | _, _ => false
  end.

(** [a != b]. *)
Definition py_ne (a b : pyval) : bool := negb (py_eq a b).

(** Values up to [==]: a boolean is the integer it equals. *)
Fixpoint py_norm (v : pyval) : pyval :=
  match v with
  | VBool true => VInt 1
  | VBool false => VInt 0
  | VTuple l => VTuple (map py_norm l)
  | _ => v
  end.

(** Truth value of an object: [None], [False], zero, the empty string
    and the empty tuple are false. *)
Definition py_truthy (v : pyval) : bool :=
  match v with
  | VNone => false
  | VBool b => b
  | VInt z => negb (Z.eqb z 0)
  | VStr s => negb (String.eqb s "")
  | VTuple l => match l with [] => false | _ => true end
  end.

(** [a or b]. *)
Definition py_or (a b : pyval) : pyval := if py_truthy a then a else b.

(** Python 2 orders values of different types: [None] is below
    everything, numbers are below the other types, and those are ordered
    by the name of their type ('str' < 'tuple'). *)
Definition type_rank (v : pyval) : Z :=
  match v with
  | VNone => 0
  | VBool _ | VInt _ => 1
  | VStr _ => 2
  | VTuple _ => 3
  end.

(** [cmp(a, b)]. *)
Fixpoint py_cmp (a b : pyval) {struct a} : comparison :=
  match a, b with
  | VStr s, VStr t => String.compare s t
  | VTuple l, VTuple m =>
      (fix lex (l m : list pyval) {struct l} : comparison :=
         match l, m with
         | [], [] => Eq
         | [], _ :: _ => Lt
         | _ :: _, [] => Gt
         | x :: l', y :: m' =>
             match py_cmp x y with
             | Eq => lex l' m'
             | c => c
             end
         end) l m
  | _, _ =>
      match num_of a, num_of b with
      | Some x, Some y => Z.compare x y
      | _, _ => Z.compare (type_rank a) (type_rank b)
      end
  end.

(** [a <= b]. *)
Definition py_le (a b : pyval) : bool :=
  match py_cmp a b with Gt => false | _ => true end.

(** ** [str] and [repr] *)

(** [str(z)] for an integer, in decimal. *)
Definition str_of_Z (z : Z) : string := NilZero.string_of_int (Z.to_int z).

(** An [int] that does not fit the machine word is a [long], whose
    [repr] carries the suffix [L] (64-bit build). *)
Definition is_long (z : Z) : bool :=
  (z <? - 2 ^ 63) || (2 ^ 63 - 1 <? z).

Definition hex_digit (n : N) : ascii :=
  ascii_of_N (if (n <? 10)%N then 48 + n else 87 + n)%N.

Fixpoint contains_char (c : ascii) (s : string) : bool :=
  match s with
  | EmptyString => false
  | String d s' => Ascii.eqb c d || contains_char c s'
  end.

Definition backslash : ascii := ascii_of_N 92.
Definition dquote : ascii := ascii_of_N 34.

Definition escape (c : ascii) : string := String backslash (String c EmptyString).

(** The body of [repr] of a byte string for the quote character [q]. *)
Fixpoint repr_chars (q : ascii) (s : string) : string :=
  match s with
  | EmptyString => EmptyString
  | String c s' =>
      let n := N_of_ascii c in
      (if Ascii.eqb c q || Ascii.eqb c backslash then escape c
       else if (n =? 9)%N then escape "t"
       else if (n =? 10)%N then escape "n"
       else if (n =? 13)%N then escape "r"
       else if (n <? 32)%N || (127 <=? n)%N then
         escape "x" ++ String (hex_digit (n / 16)) (String (hex_digit (n mod 16)) EmptyString)
       else String c EmptyString) ++ repr_chars q s'
  end.

(** [repr(s)] for a byte string: single quotes, unless the string has a
    single quote and no double quote. *)
Definition repr_str (s : string) : string :=
  if contains_char "'" s && negb (contains_char dquote s)
  then String dquote (repr_chars dquote s ++ String dquote EmptyString)
  else "'" ++ repr_chars "'" s ++ "'".

(** [repr(v)]. *)
Fixpoint py_repr (v : pyval) : string :=
  match v with
  | VNone => "None"
  | VBool true => "True"
  | VBool false => "False"
  | VInt z => if is_long z then str_of_Z z ++ "L" else str_of_Z z
  | VStr s => repr_str s
  | VTuple l =>
      match l with
      | [] => "()"
      | [x] => "(" ++ py_repr x ++ ",)"
      | x :: l' =>
          "(" ++ py_repr x ++
          (fix rest (l : list pyval) : string :=
             match l with
             | [] => ")"
             | y :: l'' => ", " ++ py_repr y ++ rest l''
             end) l'
      end
  end.

(** [str(v)]: a string is itself, an integer is printed without the
    suffix, everything else is its [repr]. *)
Definition py_str (v : pyval) : string :=
  match v with
  | VStr s => s
  | VInt z => str_of_Z z
  | _ => py_repr v
  end.

(** [len(s)]. *)
Definition py_len (s : string) : Z := Z.of_nat (String.length s).

(** ** Entries *)

(** The attribute [metadata] of an entry is the dict of the keyword
    arguments of the constructor, or whatever value was assigned to it
    afterwards. *)
Inductive pymeta : Type :=
| MBag (kw : list (string * pyval))
| MVal (v : pyval).

(** [class EnumItem(object)]. *)
Record EnumItem : Type := mkEnumItem {
  key : pyval;
  value : pyval;
  name : pyval;
  sort : pyval;
  metadata : pymeta
}.

(** [EnumItem.__init__(self, key, value, name=None, sort=None, **metadata)]. *)
Definition EnumItem_init (key value name sort : pyval) (metadata : list (string * pyval))
  : EnumItem :=
  mkEnumItem key value name sort (MBag metadata).

Definition set_name (item : EnumItem) (n : pyval) : EnumItem :=
  mkEnumItem (key item) (value item) n (sort item) (metadata item).

Definition set_metadata (item : EnumItem) (m : pymeta) : EnumItem :=
  mkEnumItem (key item) (value item) (name item) (sort item) m.

(** [EnumItem] defines neither [__nonzero__] nor [__len__]: an instance
    is true. *)
Definition item_truthy (item : EnumItem) : bool := true.

(** [item != s] for an instance and a string: [EnumItem] defines no
    comparison, so the two are compared as objects of different types
    and are never equal. *)
Definition item_ne_str (item : EnumItem) (s : string) : bool := true.

(** ** Exceptions and results *)

Inductive exn : Type :=
| ConflictItem (found : EnumItem) (k : pyval) (adding : EnumItem)
    (* Exception('Value already exists. ...' % (item_dict[k], k, v, k)) *)
| ConflictName (found : EnumItem) (k : pyval) (adding : string)
    (* Exception('Value already exists. ...' % (item_dict[item.key], item.key, name, item.key)) *)
| KeyError (k : pyval)
| IndexError
| ValueError
| TypeError
| AttributeError (attr : string).

Inductive result (A : Type) : Type :=
| Ok (a : A)
| Raise (e : exn).

Arguments Ok {A} a.
Arguments Raise {A} e.

Definition bind {A B : Type} (r : result A) (f : A -> result B) : result B :=
  match r with
  | Ok a => f a
  | Raise e => Raise e
  end.

Notation "x <- r ;; k" := (bind r (fun x => k))
  (at level 61, r at next level, right associativity).

Definition raises {A : Type} (r : result A) : bool :=
  match r with Ok _ => false | Raise _ => true end.

(** ** Dicts *)

Section Dict.
Variable V : Type.

Definition dict : Type := list (pyval * V).

(** [d.get(k)]. *)
Fixpoint dict_get (k : pyval) (d : dict) : option V :=
  match d with
  | [] => None
  | (k', v) :: d' => if py_eq k' k then Some v else dict_get k d'
  end.

(** [k in d]. *)
Definition dict_has (k : pyval) (d : dict) : bool :=
  match dict_get k d with Some _ => true | None => false end.

(** [d[k]]. *)
Definition dict_getitem (k : pyval) (d : dict) : result V :=
  match dict_get k d with
  | Some v => Ok v
  | None => Raise (KeyError k)
  end.

(** [d[k] = v]: the key that is present stays, with the new value. *)
Fixpoint dict_set (k : pyval) (v : V) (d : dict) : dict :=
  match d with
  | [] => [(k, v)]
  | (k', v') :: d' =>
      if py_eq k' k then (k', v) :: d' else (k', v') :: dict_set k v d'
  end.

(** [d.update(other)]. *)
Definition dict_update (d other : dict) : dict :=
  fold_left (fun acc kv => dict_set (fst kv) (snd kv) acc) other d.

(** [d.keys()], [d.values()] and [d.items()] are lists in Python 2. *)
Definition dict_keys (d : dict) : list pyval := map fst d.
Definition dict_values (d : dict) : list V := map snd d.
Definition dict_items (d : dict) : list (pyval * V) := d.
End Dict.

(** The registry of a class: [cls._item_dict]. *)
Definition registry : Type := dict EnumItem.

(** ** Sequences *)

(** [l[i]] for a tuple. *)
Definition py_index (l : list pyval) (i : nat) : result pyval :=
  match nth_error l i with
  | Some v => Ok v
  | None => Raise IndexError
  end.

Section Sorted.
Variable A : Type.
Variable keyf : A -> pyval.

(** [sorted(l, key=keyf)] is stable: an element goes before the first
    one that is not smaller. *)
Fixpoint insert_asc (x : A) (l : list A) : list A :=
  match l with
  | [] => [x]
  | y :: l' => if py_le (keyf x) (keyf y) then x :: l else y :: insert_asc x l'
  end.

Definition sorted (l : list A) : list A := fold_right insert_asc [] l.

(** [sorted(l, key=keyf, reverse=True)] is stable too: an element goes
    before the first one that is not greater. *)
Fixpoint insert_desc (x : A) (l : list A) : list A :=
  match l with
  | [] => [x]
  | y :: l' => if py_le (keyf y) (keyf x) then x :: l else y :: insert_desc x l'
  end.

Definition sorted_reverse (l : list A) : list A := fold_right insert_desc [] l.
End Sorted.

(** [max(l)] for a list of integers. *)
Definition py_max (l : list Z) : result Z :=
  match l with
  | [] => Raise ValueError
  | x :: l' => Ok (fold_left Z.max l' x)
  end.

(** [v + 1]. *)
Definition py_add1 (v : pyval) : result pyval :=
  match num_of v with
  | Some z => Ok (VInt (z + 1))
  | None => Raise TypeError
  end.

(** ** Class declarations *)

(** The value of an attribute of a class body, or of an entry of the
    table [enums]. *)
Inductive decl : Type :=
| DItem (e : EnumItem)       (* isinstance(val, EnumItem) *)
| DRoutine                   (* inspect.isroutine(val) *)
| DVal (v : pyval)
| DDict (d : list (Z * pyval)).
    (* a dict with integers as keys, which can be indexed like a tuple *)

(** An attribute of a class body is such a value or a dict from names to
    such values (the table [enums]). *)
Inductive attr : Type :=
| AVal (d : decl)
| ADict (t : list (string * decl)).

(** [d.get(k)] and [d[k]] for a dict with integers as keys, which has no
    key twice. *)
Fixpoint intdict_get (k : Z) (d : list (Z * pyval)) : option pyval :=
  match d with
  | [] => None
  | (k', v) :: d' => if Z.eqb k' k then Some v else intdict_get k d'
  end.

Definition intdict_getitem (k : Z) (d : list (Z * pyval)) : result pyval :=
  match intdict_get k d with
  | Some v => Ok v
  | None => Raise (KeyError (VInt k))
  end.

(** [name.startswith('_')]. *)
Definition startswith_underscore (s : string) : bool :=
  match s with
  | String c _ => Ascii.eqb c "_"
  | EmptyString => false
  end.

(** [inspect.isroutine(val)]. *)
Definition isroutine (val : attr) : bool :=
  match val with
  | AVal DRoutine => true
  | _ => false
  end.

(** [name in attrs] and [attrs[name]] for the attributes of a class body,
    whose names are distinct. *)
Fixpoint attrs_get (n : string) (attrs : list (string * attr)) : option attr :=
  match attrs with
  | [] => None
  | (n', a) :: attrs' => if String.eqb n' n then Some a else attrs_get n attrs'
  end.

(** ** Classes *)

(** The [__dict__] of a class: its attributes by name. *)
Definition namespace : Type := list (string * attr).

(** [ns[n] = a]. *)
Fixpoint attrs_set (n : string) (a : attr) (ns : namespace) : namespace :=
  match ns with
  | [] => [(n, a)]
  | (n', a') :: ns' =>
      if String.eqb n' n then (n', a) :: ns' else (n', a') :: attrs_set n a ns'
  end.

(** A class made by [MetaEnum]: the [__dict__] of the class and of the
    classes that follow it in its method resolution order, before
    [Enum], and its registry. *)
Record pyclass : Type := mkClass {
  cls_mro : list namespace;
  cls_item_dict : registry
}.

(** [n] in the first [__dict__] of the order that has it. *)
Fixpoint mro_get (n : string) (mro : list namespace) : option attr :=
  match mro with
  | [] => None
  | ns :: mro' =>
      match attrs_get n ns with
      | Some a => Some a
      | None => mro_get n mro'
      end
  end.

(** What the name of a class method of [Enum] is bound to in a class. *)
Inductive cls_attr : Type :=
| EnumMethod      (* the class method of Enum: no class before Enum has the name *)
| NotCallable     (* a value that cannot be called: a key set by line 44,
                     or an attribute of a class body that is no routine *)
| BodyRoutine.    (* a routine of a class body *)

(** [cls.n], for the name [n] of a class method of [Enum]. *)
Definition class_getattr (cls : pyclass) (n : string) : cls_attr :=
  match mro_get n (cls_mro cls) with
  | None => EnumMethod
  | Some (AVal DRoutine) => BodyRoutine
  | Some _ => NotCallable
  end.

(** The call [cls.n(...)] in a method of [Enum], where [body] is what the
    class method [n] of [Enum] does: calling a value that is not
    callable raises [TypeError]; [None] when the call runs a routine of a
    class body, of which nothing is known here. *)
Definition call_method {A : Type} (cls : pyclass) (n : string) (body : result A)
  : option (result A) :=
  match class_getattr cls n with
  | EnumMethod => Some body
  | NotCallable => Some (Raise TypeError)
  | BodyRoutine => None
  end.

(** The exception of [setattr(cls, n, v)] for a class [cls], if any: the
    names that are data descriptors of [type] and of [object] (CPython
    2.7).  [__name__] takes a string without a null byte, [__bases__] a
    tuple of classes and [__class__] a class; the members are read-only;
    [__dict__] and [__doc__] have no setter. *)
Definition setattr_error (n : string) (v : pyval) : option exn :=
  if String.eqb n "__name__" then
    match v with
    | VStr s => if contains_char (ascii_of_N 0) s then Some ValueError else None
    | _ => Some TypeError
    end
  else if existsb (String.eqb n)
            ["__bases__"; "__class__"; "__mro__"; "__base__"; "__basicsize__";
             "__itemsize__"; "__flags__"; "__weakrefoffset__"; "__dictoffset__"]
  then Some TypeError
  else if existsb (String.eqb n) ["__dict__"; "__doc__"]
  then Some (AttributeError n)
  else None.

Arguments setattr_error : simpl never.

Module MetaEnum.

(** Lines 14-16: every entry of a base is checked against the
    accumulator before the base is merged. *)
Fixpoint check_base (permissive : bool) (item_dict : registry)
    (items : list (pyval * EnumItem)) : result unit :=
  match items with
  | [] => Ok tt
  | (k, v) :: items' =>
      match dict_get k item_dict with
      | Some old =>
          if negb permissive
             && (py_ne (key old) (key v) || py_ne (value old) (value v))
          then Raise (ConflictItem old k v)
          else check_base permissive item_dict items'
      | None => check_base permissive item_dict items'
      end
  end.

(** Lines 12-18, for one base: [None] is a base without [_item_dict]. *)
Definition merge_base (permissive : bool) (item_dict : registry)
    (base : option registry) : result registry :=
  match base with
  | None => Ok item_dict
  | Some base_dict =>
      _ <- check_base permissive item_dict (dict_items base_dict) ;;
      Ok (dict_update item_dict base_dict)
  end.

Fixpoint merge_bases (permissive : bool) (item_dict : registry)
    (bases : list (option registry)) : result registry :=
  match bases with
  | [] => Ok item_dict
  | base :: bases' =>
      item_dict' <- merge_base permissive item_dict base ;;
      merge_bases permissive item_dict' bases'
  end.

(** Line 30. *)
Definition skipped (underscore_check : bool) (n : string) (val : attr) : bool :=
  underscore_check && startswith_underscore n || isroutine val.

(** Lines 33-40.  A dict has [__iter__] and is indexed by its keys: one
    with names as keys has no key [0]; a routine does not come here. *)
Definition normalize (n : string) (val : attr) : result EnumItem :=
  match val with
  | AVal (DItem e) => Ok e
  | AVal (DVal (VTuple l)) =>
      k <- py_index l 0 ;;
      lbl <- py_index l 1 ;;
      let item := EnumItem_init k lbl VNone k [] in
      if (2 <? Z.of_nat (List.length l)) then
        m <- py_index l 2 ;;
        Ok (set_metadata item (MVal m))
      else Ok item
  | AVal (DDict d) =>
      k <- intdict_getitem 0 d ;;
      lbl <- intdict_getitem 1 d ;;
      let item := EnumItem_init k lbl VNone k [] in
      if (2 <? Z.of_nat (List.length d)) then
        m <- intdict_getitem 2 d ;;
        Ok (set_metadata item (MVal m))
      else Ok item
  | ADict _ => Raise (KeyError (VInt 0))
  | AVal (DVal v) => Ok (EnumItem_init v (VStr n) VNone VNone [])
  | AVal DRoutine => Raise TypeError
  end.

(** Lines 20-27: the pairs to register and whether names with an
    underscore are skipped.  For the class [Enum] itself nothing is
    registered and [underscore_check] is never read.  The pairs of a
    dict with integers as keys have no names: the loop ends at the
    first of them, with the exception of lines 33-40 if there is one,
    and else with the [TypeError] of [setattr] for a name that is no
    string. *)
Definition declared (cname : string) (attrs : list (string * attr))
  : result (bool * list (string * attr)) :=
  if String.eqb cname "Enum" then Ok (false, [])
  else
    match attrs_get "enums" attrs with
    | Some (ADict t) => Ok (false, map (fun nv => (fst nv, AVal (snd nv))) t)
    | Some (AVal (DDict [])) => Ok (false, [])
    | Some (AVal (DDict ((_, v) :: _))) =>
        match normalize "" (AVal (DVal v)) with
        | Raise e => Raise e
        | Ok _ => Raise TypeError
        end
    | Some (AVal _) => Raise (AttributeError "items")
    | None => Ok (true, attrs)
    end.

(** Lines 29-47, the registry: [setattr(mcs, name, item.key)] at line
    44 can raise; the class attributes it sets are [class_dict]
    below. *)
Fixpoint register (permissive underscore_check : bool) (item_dict : registry)
    (enums : list (string * attr)) : result registry :=
  match enums with
  | [] => Ok item_dict
  | (n, val) :: enums' =>
      if skipped underscore_check n val
      then register permissive underscore_check item_dict enums'
      else
        item0 <- normalize n val ;;
        let item := set_name item0 (VStr n) in
        match setattr_error n (key item) with
        | Some e => Raise e
        | None =>
            match dict_get (key item) item_dict with
            | Some old =>
                if negb permissive && item_ne_str old n
                then Raise (ConflictName old (key item) n)
                else register permissive underscore_check
                       (dict_set (key item) item item_dict) enums'
            | None =>
                register permissive underscore_check
                  (dict_set (key item) item item_dict) enums'
            end
        end
  end.

(** Lines 29-47, the class attributes, in a declaration that does not
    fail: line 44 binds the name of every pair that is not skipped to
    the key of its entry, in the [__dict__] [ns] of the class;
    [__name__] renames the class instead. *)
Fixpoint class_dict (underscore_check : bool) (ns : namespace)
    (enums : list (string * attr)) : namespace :=
  match enums with
  | [] => ns
  | (n, val) :: enums' =>
      if skipped underscore_check n val then class_dict underscore_check ns enums'
      else
        match normalize n val with
        | Ok item =>
            if String.eqb n "__name__" then class_dict underscore_check ns enums'
            else class_dict underscore_check
                   (attrs_set n (AVal (DVal (key item))) ns) enums'
        | Raise _ => ns
        end
  end.

(** [MetaEnum.__init__(mcs, name, bases, attrs)]: the registry it
    stores in [mcs._item_dict].  [permissive] is
    [issubclass(mcs, NonUniqueEnum)]. *)
Definition __init__ (permissive : bool) (cname : string)
    (bases : list (option registry)) (attrs : list (string * attr))
  : result registry :=
  item_dict <- merge_bases permissive [] bases ;;
  de <- declared cname attrs ;;
  register permissive (fst de) item_dict (snd de).

(** The class that the statement [class cname(bases): attrs] makes:
    [type.__new__] makes [attrs] the [__dict__] of the class and
    [__init__] sets the constants and the registry.  [mro_rest] has
    the [__dict__] of the classes that follow the class in its method
    resolution order, before [Enum]. *)
Definition new_class (permissive : bool) (cname : string)
    (bases : list (option registry)) (mro_rest : list namespace)
    (attrs : list (string * attr)) : result pyclass :=
  item_dict <- __init__ permissive cname bases attrs ;;
  de <- declared cname attrs ;;
  Ok (mkClass (class_dict (fst de) attrs (snd de) :: mro_rest) item_dict).

(** [MetaEnum.__getitem__(mcs, key)]. *)
Definition __getitem__ (item_dict : registry) (k : pyval) : result pyval :=
  item <- dict_getitem k item_dict ;;
  if item_truthy item then Ok (value item) else Ok VNone.

(** [MetaEnum.__iter__(mcs)]: the keys it yields. *)
Definition __iter__ (item_dict : registry) : list pyval :=
  dict_keys item_dict.

End MetaEnum.

(** [random.randint(a, b)]: [ValueError] for an empty range, and else
    an integer of the range, every one of which some state [seed] of the
    generator gives. *)
Definition randint (a b : Z) (seed : Z) : result Z :=
  if b <? a then Raise ValueError else Ok (a + seed mod (b - a + 1)).

(** A loop that computes one value for every element of a list and
    stops at the first exception. *)
Fixpoint map_result {A B : Type} (f : A -> result B) (l : list A) : result (list B) :=
  match l with
  | [] => Ok []
  | x :: l' =>
      y <- f x ;;
      ys <- map_result f l' ;;
      Ok (y :: ys)
  end.

(** ** Queries *)

(** What [verbose] returns: the whole listing or one label. *)
Inductive verbose_result : Type :=
| Listing (l : list (pyval * pyval))
| Label (v : pyval).

(** What [metadata] returns: the dict of all metadata, the metadata of
    one entry, or the default. *)
Inductive metadata_result : Type :=
| AllMeta (l : dict pymeta)
| ItemMeta (m : pymeta)
| Default (v : pyval).

(** [key is False]. *)
Definition is_False (k : pyval) : bool :=
  match k with
  | VBool false => true
  | _ => false
  end.

(** A tuple has no attribute [value] or [key]. *)
Definition tuple_getattr (item : pyval * EnumItem) (attr : string) : result pyval :=
  Raise (AttributeError attr).

Module Enum.

(** [Enum.keys()]. *)
Definition keys (item_dict : registry) : list pyval := dict_keys item_dict.

(** [Enum.values()]. *)
Definition values (item_dict : registry) : list pyval :=
  map name (dict_values item_dict).

(** [Enum.items()]. *)
Definition items (item_dict : registry) : list (pyval * pyval) :=
  map (fun x => (fst x, name (snd x))) (dict_items item_dict).

(** [Enum.max_length()], which calls [cls.keys()]. *)
Definition max_length (cls : pyclass) : option (result Z) :=
  call_method cls "keys"
    (py_max (map (fun x => py_len (py_str x)) (keys (cls_item_dict cls)))).

(** [Enum.lookup(key, get=False)]. *)
Definition lookup (item_dict : registry) (k : pyval) (get : bool) : result pyval :=
  if get then
    match dict_get k item_dict with
    | Some item => if item_truthy item then Ok (name item) else Ok k
    | None => Ok k
    end
  else
    item <- dict_getitem k item_dict ;;
    Ok (name item).

(** The key of the sort in [verbose]: [x.sort or x.key]. *)
Definition sort_key (x : EnumItem) : pyval := py_or (sort x) (key x).

(** [Enum.verbose(key=False, default='')]. *)
Definition verbose (item_dict : registry) (k : pyval) (default : pyval)
  : verbose_result :=
  if is_False k then
    let items := dict_values item_dict in
    Listing (map (fun x => (key x, value x)) (sorted sort_key items))
  else
    match dict_get k item_dict with
    | Some item => if item_truthy item then Label (value item) else Label default
    | None => Label default
    end.

(** [Enum.get(key, default=None)], which calls [cls.verbose(...)]. *)
Definition get (cls : pyclass) (k : pyval) (default : pyval)
  : option (result verbose_result) :=
  call_method cls "verbose" (Ok (verbose (cls_item_dict cls) k default)).

(** The loop of [reverbose]: [None] when it ends without returning. *)
Fixpoint reverbose_loop (items : list (pyval * EnumItem)) (val : pyval)
  : option (result pyval) :=
  match items with
  | [] => None
  | item :: items' =>
      match tuple_getattr item "value" with
      | Raise e => Some (Raise e)
      | Ok v =>
          if py_eq v val then Some (tuple_getattr item "key")
          else reverbose_loop items' val
      end
  end.

(** [Enum.reverbose] with [val] and the further positional arguments
    [args]. *)
Definition reverbose (item_dict : registry) (val : pyval) (args : list pyval)
  : result pyval :=
  match reverbose_loop (dict_items item_dict) val with
  | Some r => r
  | None =>
      match args with
      | a :: _ => Ok a
      | [] => Raise (KeyError val)
      end
  end.

(** [Enum.metadata] with the positional arguments [args]: [dict.get]
    takes one or two arguments. *)
Definition metadata (item_dict : registry) (args : list pyval)
  : result metadata_result :=
  match args with
  | [] =>
      Ok (AllMeta (fold_left (fun acc x => dict_set (key x) (metadata x) acc)
                     (dict_values item_dict) []))
  | [k] =>
      match dict_get k item_dict with
      | Some item => Ok (ItemMeta (metadata item))
      | None => Ok (Default VNone)
      end
  | [k; default] =>
      match dict_get k item_dict with
      | Some item => Ok (ItemMeta (metadata item))
      | None => Ok (Default default)
      end
  | _ => Raise TypeError
  end.

(** [Enum.next_available_key()], which calls [cls.keys()]. *)
Definition next_available_key (cls : pyclass) : option (result pyval) :=
  call_method cls "keys"
    (let sorted_keys := sorted_reverse (fun x => x) (keys (cls_item_dict cls)) in
     match sorted_keys with
     | k :: _ => py_add1 k
     | [] => Ok (VInt 0)
     end).

(** [Enum.random()], which calls [cls.verbose()]: without a key
    [verbose] returns the listing. *)
Definition random (cls : pyclass) (seed : Z) : option (result pyval) :=
  call_method cls "verbose"
    (match verbose (cls_item_dict cls) (VBool false) (VStr "") with
     | Listing verbose =>
         let length := Z.of_nat (List.length verbose) in
         index <- randint 0 (length - 1) seed ;;
         match nth_error verbose (Z.to_nat index) with
         | Some kv => Ok (fst kv)
         | None => Raise IndexError
         end
     | Label _ => Raise TypeError
     end).

(** [Enum.rest_as_json(api_user, user, ...)], which calls
    [cls.verbose()] and, for every pair of the listing,
    [cls.metadata(key)]; the arguments are not read. *)
Definition rest_as_json (cls : pyclass)
  : option (result (list (pyval * pyval * metadata_result))) :=
  match class_getattr cls "verbose" with
  | BodyRoutine => None
  | NotCallable => Some (Raise TypeError)
  | EnumMethod =>
      match verbose (cls_item_dict cls) (VBool false) (VStr "") with
      | Listing [] => Some (Ok [])
      | Listing ret =>
          call_method cls "metadata"
            (map_result (fun kv => m <- metadata (cls_item_dict cls) [fst kv] ;;
                                   Ok (fst kv, snd kv, m)) ret)
      | Label _ => Some (Raise TypeError)
      end
  end.

End Enum.

(** ** Predicates of the statements *)

(** No two keys of a dict are equal: what Python guarantees of every
    dict. *)
Fixpoint keys_distinct {V : Type} (d : dict V) : bool :=
  match d with
  | [] => true
  | (k, _) :: d' => negb (dict_has k d') && keys_distinct d'
  end.

(** Every entry is stored under a key equal to its own [key]. *)
Definition keys_consistent (d : registry) : bool :=
  forallb (fun ke => py_eq (fst ke) (key (snd ke))) d.

(** The registry of every base that has one is a dict whose entries
    are stored under their own keys. *)
Definition bases_ok (bases : list (option registry)) : Prop :=
  forall b, In (Some b) bases -> keys_distinct b = true /\ keys_consistent b = true.

(** The two exceptions of lines 16 and 46. *)
Definition is_conflict (e : exn) : bool :=
  match e with
  | ConflictItem _ _ _ | ConflictName _ _ _ => true
  | _ => false
  end.

(** The dict binds a key equal to [k] to [v]. *)
Definition bound {V : Type} (d : dict V) (k : pyval) (v : V) : Prop :=
  exists k', In (k', v) d /\ py_eq k' k = true.

(** The dict has no key equal to [k]. *)
Definition absent {V : Type} (d : dict V) (k : pyval) : Prop :=
  forall k' v, In (k', v) d -> py_eq k' k = false.

(** [x] is not above [y] in the order of [sorted(..., key=keyf)]. *)
Definition key_le {A : Type} (keyf : A -> pyval) (x y : A) : Prop :=
  py_le (keyf x) (keyf y) = true.

(** The order of the listing in the words of the specification: the
    sort value of the entry, and its key when the sort is unset
    ([None]).  To be compared with [Enum.sort_key]. *)
Definition sort_value_or_key (x : EnumItem) : pyval :=
  match sort x with
  | VNone => key x
  | s => s
  end.

(** The entry that the loop makes of the attribute [n = val]. *)
Definition entry_of (nv : string * attr) (ke : pyval * EnumItem) : Prop :=
  exists item0, MetaEnum.normalize (fst nv) (snd nv) = Ok item0 /\
    snd ke = set_name item0 (VStr (fst nv)) /\ fst ke = key item0.


(** * Properties *)

Open Scope list_scope.

(** ** Equality and order of values *)

Lemma pyval_ind' (P : pyval -> Prop) :
  P VNone -> (forall b, P (VBool b)) -> (forall z, P (VInt z)) ->
  (forall s, P (VStr s)) ->
  (forall l, Forall P l -> P (VTuple l)) ->
  forall v, P v.
Proof.
  intros HN HB HI HS HT.
  apply pyval_rect'; auto.
  intros l H. apply HT. apply Forall_forall. intros x Hx.
  destruct (In_nth_error _ _ Hx) as [n Hn]. eauto.
Qed.

Lemma py_eq_tuple (l m : list pyval) :
  py_eq (VTuple l) (VTuple m) =
  match l, m with
  | [], [] => true
  | x :: l', y :: m' => py_eq x y && py_eq (VTuple l') (VTuple m')
  | _, _ => false
  end.
Proof. destruct l, m; reflexivity. Qed.

Lemma py_eq_norm (a b : pyval) : py_eq a b = true <-> py_norm a = py_norm b.
Proof.
  revert b. induction a as [| x | x | s | l IH] using pyval_ind'; intros b.
  - destruct b as [| [] | | |]; simpl; split; congruence.
  - destruct x, b as [| [] | z | |]; cbn [py_eq num_of py_norm];
      rewrite ?Z.eqb_eq; split; congruence.
  - destruct b as [| [] | z | |]; cbn [py_eq num_of py_norm];
      rewrite ?Z.eqb_eq; split; congruence.
  - destruct b as [| [] | | t |]; simpl; split; try congruence.
    + intros H. apply String.eqb_eq in H. congruence.
    + intros H. injection H as ->. apply String.eqb_refl.
  - destruct b as [| [] | | | m]; try (simpl; split; congruence).
    revert m. induction IH as [| x l Hx _ IHl]; intros m.
    + destruct m; simpl; split; congruence.
    + destruct m as [| y m]; [simpl; split; congruence |].
      rewrite py_eq_tuple, andb_true_iff, Hx, IHl. simpl.
      split.
      * intros [-> H]. injection H as ->. reflexivity.
      * intros H. injection H as -> ->. auto.
Qed.

Lemma py_eq_refl (a : pyval) : py_eq a a = true.
Proof. apply py_eq_norm. reflexivity. Qed.

Lemma py_eq_sym (a b : pyval) : py_eq a b = py_eq b a.
Proof.
  destruct (py_eq a b) eqn:E, (py_eq b a) eqn:F; auto.
  - apply py_eq_norm in E. symmetry in E. apply py_eq_norm in E. congruence.
  - apply py_eq_norm in F. symmetry in F. apply py_eq_norm in F. congruence.
Qed.

Lemma py_eq_trans (a b c : pyval) :
  py_eq a b = true -> py_eq b c = true -> py_eq a c = true.
Proof. rewrite !py_eq_norm. congruence. Qed.

Lemma py_eq_false_l (a b c : pyval) :
  py_eq a b = true -> py_eq a c = false -> py_eq b c = false.
Proof.
  intros Hab Hac. destruct (py_eq b c) eqn:E; auto.
  rewrite (py_eq_trans _ _ _ Hab E) in Hac. discriminate.
Qed.

Lemma py_cmp_tuple (l m : list pyval) :
  py_cmp (VTuple l) (VTuple m) =
  match l, m with
  | [], [] => Eq
  | [], _ :: _ => Lt
  | _ :: _, [] => Gt
  | x :: l', y :: m' =>
      match py_cmp x y with
      | Eq => py_cmp (VTuple l') (VTuple m')
      | c => c
      end
  end.
Proof. destruct l, m; reflexivity. Qed.

Lemma py_cmp_antisym (a b : pyval) : py_cmp b a = CompOpp (py_cmp a b).
Proof.
  revert b. induction a as [| x | x | s | l IH] using pyval_ind'; intros b.
  - destruct b as [| [] | | |]; reflexivity.
  - destruct x, b as [| [] | z | |]; cbn [py_cmp num_of type_rank];
      try reflexivity; apply Z.compare_antisym.
  - destruct b as [| [] | z | |]; cbn [py_cmp num_of type_rank];
      try reflexivity; apply Z.compare_antisym.
  - destruct b as [| [] | | t |]; simpl; try reflexivity.
    apply String.compare_antisym.
  - destruct b as [| [] | | | m]; try reflexivity.
    revert m. induction IH as [| x l Hx _ IHl]; intros m.
    + destruct m; reflexivity.
    + destruct m as [| y m]; [reflexivity |].
      rewrite (py_cmp_tuple (y :: m)), (py_cmp_tuple (x :: l)), Hx, IHl.
      destruct (py_cmp x y); reflexivity.
Qed.

Lemma py_le_total (a b : pyval) : py_le a b = false -> py_le b a = true.
Proof.
  unfold py_le. rewrite (py_cmp_antisym a b).
  destruct (py_cmp a b); simpl; congruence.
Qed.

Lemma py_le_num (a b : pyval) (x y : Z) :
  num_of a = Some x -> num_of b = Some y -> py_le a b = (x <=? y).
Proof.
  intros Ha Hb. unfold py_le.
  assert (E : py_cmp a b = (x ?= y)).
  { destruct a as [| [] | | |], b as [| [] | | |]; simpl in *; try discriminate;
      injection Ha as <-; injection Hb as <-; reflexivity. }
  rewrite E. unfold Z.leb. destruct (x ?= y); reflexivity.
Qed.

(** ** Dicts *)

Section DictFacts.
Variable V : Type.
Implicit Types (d : dict V) (k : pyval) (v : V).

Lemma dict_get_absent d k : dict_get k d = None <-> absent d k.
Proof.
  unfold absent. induction d as [| [k0 v0] d IH]; simpl.
  - split; [intros _ k' v [] | reflexivity].
  - destruct (py_eq k0 k) eqn:E.
    + split; [discriminate |]. intros H.
      rewrite (H k0 v0) in E by auto. discriminate.
    + rewrite IH. split.
      * intros H k' v [Heq | Hin]; [injection Heq as <- <-; exact E | eauto].
      * intros H k' v Hin. eauto.
Qed.

Lemma dict_get_bound d k v : dict_get k d = Some v -> bound d k v.
Proof.
  unfold bound. induction d as [| [k0 v0] d IH]; simpl; [discriminate |].
  destruct (py_eq k0 k) eqn:E.
  - intros H. injection H as <-. exists k0. auto.
  - intros H. destruct (IH H) as (k' & Hin & Hk). exists k'. auto.
Qed.

Lemma keys_distinct_tail k v d :
  keys_distinct ((k, v) :: d) = true -> absent d k /\ keys_distinct d = true.
Proof.
  simpl. rewrite andb_true_iff, negb_true_iff. unfold dict_has.
  intros [H1 H2]. split; [| exact H2].
  apply dict_get_absent. destruct (dict_get k d); [discriminate | reflexivity].
Qed.

Lemma bound_dict_get d k v :
  keys_distinct d = true -> bound d k v -> dict_get k d = Some v.
Proof.
  induction d as [| [k0 v0] d IH]; intros Hd (k' & Hin & Hk).
  - destruct Hin.
  - destruct (keys_distinct_tail _ _ _ Hd) as [Habs Hd']. simpl.
    destruct Hin as [Heq | Hin].
    + injection Heq as -> ->. rewrite Hk. reflexivity.
    + destruct (py_eq k0 k) eqn:E.
      * pose proof (Habs _ _ Hin) as Hf.
        rewrite py_eq_sym in E.
        rewrite (py_eq_trans _ _ _ Hk E) in Hf. discriminate.
      * apply IH; [exact Hd' |]. exists k'. auto.
Qed.

Lemma dict_get_set k v d k' :
  dict_get k' (dict_set k v d) = if py_eq k k' then Some v else dict_get k' d.
Proof.
  induction d as [| [k0 v0] d IH]; simpl; [reflexivity |].
  destruct (py_eq k0 k) eqn:E; simpl.
  - destruct (py_eq k0 k') eqn:F.
    + rewrite py_eq_sym in E. rewrite (py_eq_trans _ _ _ E F). reflexivity.
    + rewrite (py_eq_false_l _ _ _ E F). reflexivity.
  - rewrite IH. destruct (py_eq k0 k') eqn:F; [| reflexivity].
    destruct (py_eq k k') eqn:G; [| reflexivity].
    rewrite py_eq_sym in G. rewrite (py_eq_trans _ _ _ F G) in E. discriminate.
Qed.

Lemma keys_distinct_dict_set k v d :
  keys_distinct d = true -> keys_distinct (dict_set k v d) = true.
Proof.
  induction d as [| [k0 v0] d IH]; simpl; [reflexivity |].
  rewrite andb_true_iff. intros [H1 H2].
  destruct (py_eq k0 k) eqn:E; simpl.
  - rewrite H1, H2. reflexivity.
  - rewrite (IH H2), andb_true_r. unfold dict_has in *.
    rewrite dict_get_set, py_eq_sym, E. exact H1.
Qed.

Lemma dict_set_absent k v d :
  dict_get k d = None -> dict_set k v d = d ++ [(k, v)].
Proof.
  induction d as [| [k0 v0] d IH]; simpl; [reflexivity |].
  destruct (py_eq k0 k); [discriminate |]. intros H. rewrite (IH H). reflexivity.
Qed.

Lemma dict_set_same k v d :
  keys_distinct d = true -> In (k, v) d -> dict_set k v d = d.
Proof.
  induction d as [| [k0 v0] d IH]; intros Hd Hin; [destruct Hin |].
  destruct (keys_distinct_tail _ _ _ Hd) as [Habs Hd']. simpl.
  destruct Hin as [Heq | Hin].
  - injection Heq as -> ->. rewrite py_eq_refl. reflexivity.
  - pose proof (Habs _ _ Hin) as Hf. rewrite py_eq_sym in Hf. rewrite Hf.
    rewrite (IH Hd' Hin). reflexivity.
Qed.

Lemma dict_update_keys_distinct d other :
  keys_distinct d = true -> keys_distinct (dict_update d other) = true.
Proof.
  unfold dict_update. revert d.
  induction other as [| [k v] other IH]; intros d Hd; simpl; [exact Hd |].
  apply IH. apply keys_distinct_dict_set. exact Hd.
Qed.

Lemma dict_update_sub d other :
  keys_distinct d = true -> incl other d -> dict_update d other = d.
Proof.
  unfold dict_update. intros Hd.
  induction other as [| [k v] other IH]; intros Hin; simpl; [reflexivity |].
  rewrite dict_set_same; [| exact Hd | apply Hin; left; reflexivity].
  apply IH. intros x Hx. apply Hin. right. exact Hx.
Qed.

Lemma keys_distinct_app_absent d k v other :
  keys_distinct (d ++ (k, v) :: other) = true -> dict_get k d = None.
Proof.
  induction d as [| [k0 v0] d IH]; intros H; [reflexivity |].
  change ((((k0, v0) :: d) ++ (k, v) :: other)) with ((k0, v0) :: (d ++ (k, v) :: other)) in H.
  destruct (keys_distinct_tail _ _ _ H) as [Habs Hd]. simpl.
  assert (E : py_eq k k0 = false).
  { apply (Habs k v). apply in_or_app. right. left. reflexivity. }
  rewrite py_eq_sym, E. apply IH. exact Hd.
Qed.

Lemma dict_update_app d other :
  keys_distinct (d ++ other) = true -> dict_update d other = d ++ other.
Proof.
  unfold dict_update. revert d.
  induction other as [| [k v] other IH]; intros d H; simpl.
  - rewrite app_nil_r. reflexivity.
  - rewrite (dict_set_absent _ _ _ (keys_distinct_app_absent _ _ _ _ H)).
    replace (d ++ (k, v) :: other) with ((d ++ [(k, v)]) ++ other) in *
      by (rewrite <- app_assoc; reflexivity).
    apply IH. exact H.
Qed.

Lemma dict_update_nil d :
  keys_distinct d = true -> dict_update [] d = d.
Proof. intros H. apply (dict_update_app [] d H). Qed.
End DictFacts.

(** ** Building the registry *)

(** What the check of a base against the accumulator decides. *)
Lemma check_base_spec (permissive : bool) (acc : registry)
    (items : list (pyval * EnumItem)) :
  match MetaEnum.check_base permissive acc items with
  | Ok _ =>
      permissive = true \/
      forall k v old, In (k, v) items -> dict_get k acc = Some old ->
        py_eq (key old) (key v) = true /\ py_eq (value old) (value v) = true
  | Raise e =>
      permissive = false /\
      exists k v old, In (k, v) items /\ dict_get k acc = Some old /\
        (py_eq (key old) (key v) = false \/ py_eq (value old) (value v) = false) /\
        e = ConflictItem old k v
  end.
Proof.
  induction items as [| [k v] items IH]; simpl.
  - right. intros k v old [].
  - destruct (dict_get k acc) as [old |] eqn:G.
    + destruct permissive; simpl.
      * destruct (MetaEnum.check_base true acc items); [left; reflexivity |].
        destruct IH as [IH _]. discriminate.
      * unfold py_ne.
        destruct (py_eq (key old) (key v)) eqn:E1; simpl.
        -- destruct (py_eq (value old) (value v)) eqn:E2; simpl.
           ++ destruct (MetaEnum.check_base false acc items).
              ** right. destruct IH as [IH | IH]; [discriminate |].
                 intros k' v' old' [Heq | Hin] Hg.
                 --- injection Heq as <- <-. rewrite G in Hg. injection Hg as <-. auto.
                 --- eauto.
              ** destruct IH as [_ (k' & v' & old' & Hin & IH)].
                 split; [reflexivity |]. exists k', v', old'. auto.
           ++ split; [reflexivity |]. exists k, v, old. auto 6.
        -- split; [reflexivity |]. exists k, v, old. auto 6.
    + destruct (MetaEnum.check_base permissive acc items).
      * destruct IH as [IH | IH]; [left; exact IH | right].
        intros k' v' old' [Heq | Hin] Hg; [| eauto].
        injection Heq as <- <-. rewrite G in Hg. discriminate.
      * destruct IH as [Hp (k' & v' & old' & Hin & IH)].
        split; [exact Hp |]. exists k', v', old'. auto.
Qed.

(** The accumulator never has two equal keys, whatever it is built
    from. *)
Lemma merge_base_keys_distinct (permissive : bool) (acc : registry)
    (base : option registry) (r : registry) :
  keys_distinct acc = true ->
  MetaEnum.merge_base permissive acc base = Ok r -> keys_distinct r = true.
Proof.
  intros Hd. destruct base as [b |]; simpl.
  - destruct (MetaEnum.check_base permissive acc (dict_items b)); simpl; [| discriminate].
    intros H. injection H as <-. apply dict_update_keys_distinct. exact Hd.
  - intros H. injection H as <-. exact Hd.
Qed.

Lemma merge_bases_keys_distinct (permissive : bool) (bases : list (option registry)) :
  forall (acc r : registry),
  keys_distinct acc = true ->
  MetaEnum.merge_bases permissive acc bases = Ok r -> keys_distinct r = true.
Proof.
  induction bases as [| b bases IH]; intros acc r Hd; simpl.
  - intros H. injection H as <-. exact Hd.
  - destruct (MetaEnum.merge_base permissive acc b) as [acc' |] eqn:E; simpl; [| discriminate].
    apply IH. exact (merge_base_keys_distinct _ _ _ Hd E).
Qed.

Lemma register_keys_distinct (permissive uc : bool) (enums : list (string * attr)) :
  forall (acc r : registry),
  keys_distinct acc = true ->
  MetaEnum.register permissive uc acc enums = Ok r -> keys_distinct r = true.
Proof.
  induction enums as [| [n val] enums IH]; intros acc r Hd; simpl.
  - intros H. injection H as <-. exact Hd.
  - destruct (MetaEnum.skipped uc n val); [apply IH; exact Hd |].
    destruct (MetaEnum.normalize n val) as [item0 |]; simpl; [| discriminate].
    destruct (setattr_error n (key item0)); [discriminate |].
    destruct (dict_get (key item0) acc) as [old |].
    + destruct (negb permissive && item_ne_str old n); [discriminate |].
      apply IH. apply keys_distinct_dict_set. exact Hd.
    + apply IH. apply keys_distinct_dict_set. exact Hd.
Qed.

(** The invariant of the data model: a registry that [MetaEnum.__init__]
    returns has no two equal keys. *)
Lemma init_keys_distinct (permissive : bool) (cname : string)
    (bases : list (option registry)) (attrs : list (string * attr)) (r : registry) :
  MetaEnum.__init__ permissive cname bases attrs = Ok r -> keys_distinct r = true.
Proof.
  unfold MetaEnum.__init__.
  destruct (MetaEnum.merge_bases permissive [] bases) as [acc |] eqn:E; simpl; [| discriminate].
  destruct (MetaEnum.declared cname attrs) as [[uc enums] |]; simpl; [| discriminate].
  apply register_keys_distinct.
  eapply merge_bases_keys_distinct; [| exact E]. reflexivity.
Qed.

Lemma dict_update_get (V : Type) (other : dict V) :
  forall (d : dict V) (k : pyval),
  keys_distinct other = true ->
  dict_get k (dict_update d other) =
  match dict_get k other with
  | Some v => Some v
  | None => dict_get k d
  end.
Proof.
  unfold dict_update.
  induction other as [| [k0 v0] other IH]; intros d k Hd; simpl; [reflexivity |].
  destruct (keys_distinct_tail _ _ _ Hd) as [Habs Hd'].
  rewrite (IH _ _ Hd'), dict_get_set.
  destruct (py_eq k0 k) eqn:E; [| reflexivity].
  replace (dict_get k other) with (@None V); [reflexivity |].
  symmetry. apply dict_get_absent. intros k' v' Hin.
  destruct (py_eq k' k) eqn:F; [| reflexivity].
  rewrite py_eq_sym in E. rewrite <- (Habs _ _ Hin). symmetry.
  exact (py_eq_trans _ _ _ F E).
Qed.

Lemma check_base_self (r : registry) :
  keys_distinct r = true -> MetaEnum.check_base false r r = Ok tt.
Proof.
  intros Hd. pose proof (check_base_spec false r r) as H.
  destruct (MetaEnum.check_base false r r) as [[] | e]; [reflexivity |].
  destruct H as [_ (k & v & old & Hin & Hg & Hne & _)].
  assert (Hb : dict_get k r = Some v).
  { apply bound_dict_get; [exact Hd |]. exists k. split; [exact Hin | apply py_eq_refl]. }
  rewrite Hb in Hg. injection Hg as <-.
  rewrite !py_eq_refl in Hne. destruct Hne; discriminate.
Qed.

Lemma check_base_nil (permissive : bool) (items : list (pyval * EnumItem)) :
  MetaEnum.check_base permissive [] items = Ok tt.
Proof. induction items as [| [k v] items IH]; simpl; auto. Qed.

(** C1 (as the code has it): in the default mode, merging a base into
    the accumulator fails exactly when some key of the base is already
    bound to an entry whose [key] or [value] differs from the incoming
    entry's; the names are not compared.  When it does not fail, every
    entry of the base replaces the one bound to its key and the other
    keys keep their entries, so that merging the same registry twice, as
    diamond inheritance does, succeeds and yields that registry. *)
Theorem C1_merge_conflict_by_key_value (acc base : registry)
    (Hacc : keys_distinct acc = true) (Hbase : keys_distinct base = true) :
  (raises (MetaEnum.merge_base false acc (Some base)) = true <->
   exists k v old, In (k, v) base /\ bound acc k old /\
     (py_eq (key old) (key v) = false \/ py_eq (value old) (value v) = false)) /\
  (forall r, MetaEnum.merge_base false acc (Some base) = Ok r ->
     (forall k v, bound base k v -> dict_get k r = Some v) /\
     (forall k, absent base k -> dict_get k r = dict_get k acc)) /\
  MetaEnum.merge_bases false [] [Some base; Some base] = Ok base.
Proof.
  split; [| split].
  - unfold MetaEnum.merge_base, dict_items.
    pose proof (check_base_spec false acc base) as H.
    destruct (MetaEnum.check_base false acc base) as [u | e]; simpl.
    + split; [discriminate |].
      intros (k & v & old & Hin & Hb & Hne).
      destruct H as [H | H]; [discriminate |].
      destruct (H k v old Hin (bound_dict_get Hacc Hb)) as [H1 H2].
      destruct Hne; congruence.
    + split; [| reflexivity]. intros _.
      destruct H as [_ (k & v & old & Hin & Hg & Hne & _)].
      exists k, v, old. split; [exact Hin |]. split; [| exact Hne].
      apply dict_get_bound. exact Hg.
  - intros r. unfold MetaEnum.merge_base, dict_items.
    destruct (MetaEnum.check_base false acc base); simpl; [| discriminate].
    intros H. injection H as <-. split.
    + intros k v Hb. rewrite dict_update_get by exact Hbase.
      rewrite (bound_dict_get Hbase Hb). reflexivity.
    + intros k Ha. rewrite dict_update_get by exact Hbase.
      apply dict_get_absent in Ha. rewrite Ha. reflexivity.
  - simpl. unfold dict_items. rewrite check_base_nil. simpl.
    rewrite dict_update_nil by exact Hbase.
    rewrite check_base_self by exact Hbase. simpl.
    rewrite dict_update_sub; [reflexivity | exact Hbase | apply incl_refl].
Qed.

(** C1, at a registry with one entry merged into itself. *)
Lemma C1_merge_conflict_by_key_value_witness :
  let e := mkEnumItem (VInt 1) (VStr "one") (VStr "A") VNone (MBag []) in
  keys_distinct [(VInt 1, e)] = true /\
  MetaEnum.merge_bases false [] [Some [(VInt 1, e)]; Some [(VInt 1, e)]]
  = Ok [(VInt 1, e)].
Proof.
  intros e. split; [reflexivity |].
  apply (@C1_merge_conflict_by_key_value [(VInt 1, e)] [(VInt 1, e)]); reflexivity.
Defined.

(** C1 as stated fails: two bases bind the key [1] to entries with the
    same label and different names, and the merge succeeds, the second
    entry replacing the first. *)
Lemma C1_names_differ_no_conflict :
  let old := mkEnumItem (VInt 1) (VStr "one") (VStr "A") VNone (MBag []) in
  let new := mkEnumItem (VInt 1) (VStr "one") (VStr "B") VNone (MBag []) in
  dict_get (VInt 1) [(VInt 1, old)] = Some old /\
  (name old, value old) <> (name new, value new) /\
  MetaEnum.merge_base false [(VInt 1, old)] (Some [(VInt 1, new)]) = Ok [(VInt 1, new)] /\
  MetaEnum.__init__ false "D" [Some [(VInt 1, old)]; Some [(VInt 1, new)]] []
  = Ok [(VInt 1, new)].
Proof.
  intros old new. repeat split; try reflexivity. discriminate.
Qed.

(** In the default mode an entry of the class body whose key is already
    in the accumulator is refused, whatever name the key is bound to:
    line 45 compares the entry found, not its name, with the new name. *)
Lemma register_present_raises (uc : bool) (acc : registry) (n : string) (val : attr)
    (enums : list (string * attr)) (item0 old : EnumItem) :
  MetaEnum.skipped uc n val = false ->
  MetaEnum.normalize n val = Ok item0 ->
  setattr_error n (key item0) = None ->
  dict_get (key item0) acc = Some old ->
  MetaEnum.register false uc acc ((n, val) :: enums)
  = Raise (ConflictName old (key item0) n).
Proof.
  intros Hs Hn He Hg. simpl. rewrite Hs, Hn. simpl. rewrite He, Hg. reflexivity.
Qed.

(** C2 (the code at the failing input): a base binds the key [1] to the
    name [A]; a subclass that declares [A = 1] again, the same key under
    the same name, is refused with the conflict error. *)
Theorem C2_same_name_redeclared_raises :
  let a := mkEnumItem (VInt 1) (VStr "A") (VStr "A") VNone (MBag []) in
  MetaEnum.__init__ false "Base" [Some []] [("A", AVal (DVal (VInt 1)))]
  = Ok [(VInt 1, a)] /\
  MetaEnum.__init__ false "Sub" [Some [(VInt 1, a)]] [("A", AVal (DVal (VInt 1)))]
  = Raise (ConflictName a (VInt 1) "A").
Proof. split; reflexivity. Qed.

(** ** The listing of [verbose] *)

Section SortedFacts.
Variable A : Type.
Variable keyf : A -> pyval.

Lemma insert_asc_perm (x : A) (l : list A) : Permutation (insert_asc keyf x l) (x :: l).
Proof.
  induction l as [| y l IH]; simpl; [reflexivity |].
  destruct (py_le (keyf x) (keyf y)); [reflexivity |].
  rewrite IH. apply perm_swap.
Qed.

Lemma sorted_perm (l : list A) : Permutation (sorted keyf l) l.
Proof.
  induction l as [| x l IH]; simpl; [reflexivity |].
  rewrite insert_asc_perm, IH. reflexivity.
Qed.

Lemma insert_asc_hd (x y : A) (l : list A) :
  HdRel (key_le keyf) y l -> key_le keyf y x -> HdRel (key_le keyf) y (insert_asc keyf x l).
Proof.
  intros Hl Hyx. destruct l as [| z l]; simpl.
  - constructor. exact Hyx.
  - destruct (py_le (keyf x) (keyf z)); constructor; [exact Hyx |].
    inversion Hl; assumption.
Qed.

Lemma insert_asc_sorted (x : A) (l : list A) :
  Sorted (key_le keyf) l -> Sorted (key_le keyf) (insert_asc keyf x l).
Proof.
  induction l as [| y l IH]; intros Hs; simpl.
  - repeat constructor.
  - destruct (py_le (keyf x) (keyf y)) eqn:E.
    + constructor; [exact Hs |]. constructor. exact E.
    + inversion Hs as [| ? ? Hs' Hh]; subst. constructor; [apply IH; exact Hs' |].
      apply insert_asc_hd; [exact Hh |]. apply py_le_total. exact E.
Qed.

Lemma sorted_sorted (l : list A) : Sorted (key_le keyf) (sorted keyf l).
Proof.
  induction l as [| x l IH]; simpl; [constructor |].
  apply insert_asc_sorted. exact IH.
Qed.
End SortedFacts.

(** The listing of [verbose] has the pairs of all the entries, in
    ascending order of [x.sort or x.key]. *)
Lemma verbose_listing (d : registry) (default : pyval) :
  exists l,
    Enum.verbose d (VBool false) default = Listing (map (fun x => (key x, value x)) l) /\
    Permutation l (dict_values d) /\
    Sorted (key_le Enum.sort_key) l.
Proof.
  exists (sorted Enum.sort_key (dict_values d)). split; [reflexivity |].
  split; [apply sorted_perm | apply sorted_sorted].
Qed.

Lemma Sorted_key_le_ext (A : Type) (f g : A -> pyval) (l : list A) :
  (forall x, In x l -> f x = g x) ->
  Sorted (key_le f) l -> Sorted (key_le g) l.
Proof.
  intros Hfg Hs. induction Hs as [| x l Hs IH Hh]; constructor.
  - apply IH. intros y Hy. apply Hfg. right. exact Hy.
  - destruct Hh as [| y l Hxy]; constructor.
    unfold key_le in *.
    rewrite <- (Hfg x) by (left; reflexivity).
    rewrite <- (Hfg y) by (right; left; reflexivity).
    exact Hxy.
Qed.

Lemma sort_key_agrees (x : EnumItem) :
  sort x = VNone \/ py_truthy (sort x) = true ->
  Enum.sort_key x = sort_value_or_key x.
Proof.
  unfold Enum.sort_key, sort_value_or_key, py_or.
  intros [H | H]; rewrite H; [reflexivity |].
  destruct (sort x); try reflexivity. discriminate.
Qed.

(** Where every sort value is unset or true, the listing is in
    ascending order of the sort value, the key standing for an unset
    sort value. *)
Lemma verbose_listing_by_sort_value (d : registry) (default : pyval) :
  (forall k e, In (k, e) d -> sort e = VNone \/ py_truthy (sort e) = true) ->
  exists l,
    Enum.verbose d (VBool false) default = Listing (map (fun x => (key x, value x)) l) /\
    Permutation l (dict_values d) /\
    Sorted (key_le sort_value_or_key) l.
Proof.
  intros Hd. destruct (verbose_listing d default) as (l & Hv & Hp & Hs).
  exists l. split; [exact Hv |]. split; [exact Hp |].
  apply (@Sorted_key_le_ext _ Enum.sort_key sort_value_or_key l); [| exact Hs].
  intros x Hx. apply sort_key_agrees.
  apply (Permutation_in _ Hp) in Hx. unfold dict_values in Hx.
  apply in_map_iff in Hx. destruct Hx as ([k e] & <- & Hin). exact (Hd k e Hin).
Qed.

(** C3 (the code at the failing input): a class declares
    [X = EnumItem(5, 'a', sort=0)] and [Y = EnumItem(3, 'b', sort=1)].
    The sort value [0] of [X] is below the sort value [1] of [Y], and
    the listing has [Y] first: a sort value that is false counts as
    unset, and [X] is ordered by its key [5]. *)
Theorem C3_sort_zero_counts_as_unset :
  let x := mkEnumItem (VInt 5) (VStr "a") (VStr "X") (VInt 0) (MBag []) in
  let y := mkEnumItem (VInt 3) (VStr "b") (VStr "Y") (VInt 1) (MBag []) in
  let d := [(VInt 5, x); (VInt 3, y)] in
  MetaEnum.__init__ false "T" [Some []]
    [("X", AVal (DItem (EnumItem_init (VInt 5) (VStr "a") VNone (VInt 0) [])));
     ("Y", AVal (DItem (EnumItem_init (VInt 3) (VStr "b") VNone (VInt 1) [])))]
  = Ok d /\
  sort_value_or_key x = VInt 0 /\ sort_value_or_key y = VInt 1 /\
  py_le (sort_value_or_key y) (sort_value_or_key x) = false /\
  Enum.sort_key x = VInt 5 /\ Enum.sort_key y = VInt 1 /\
  Enum.verbose d (VBool false) (VStr "")
  = Listing [(key y, value y); (key x, value x)] /\
  Enum.verbose (rev d) (VBool false) (VStr "")
  = Listing [(key y, value y); (key x, value x)].
Proof. repeat split; reflexivity. Qed.

(** ** Reverse lookup *)

(** On a registry that is not empty [reverbose] stops at the first pair
    of [items()]: a pair has no attribute [value]. *)
Lemma reverbose_nonempty (d : registry) (val : pyval) (args : list pyval) :
  d <> [] -> Enum.reverbose d val args = Raise (AttributeError "value").
Proof. destruct d as [| kv d]; [congruence | reflexivity]. Qed.

Lemma reverbose_empty (val : pyval) (args : list pyval) :
  Enum.reverbose [] val args =
  match args with a :: _ => Ok a | [] => Raise (KeyError val) end.
Proof. reflexivity. Qed.

(** C4 (the code at the failing input): with the single entry [A = 1],
    whose label is ['A'], [verbose(1)] is ['A'] and [reverbose('A')]
    raises [AttributeError] instead of returning [1], with and without
    a default. *)
Theorem C4_reverbose_attribute_error :
  let a := mkEnumItem (VInt 1) (VStr "A") (VStr "A") VNone (MBag []) in
  let d := [(VInt 1, a)] in
  MetaEnum.__init__ false "T" [Some []] [("A", AVal (DVal (VInt 1)))] = Ok d /\
  Enum.verbose d (VInt 1) (VStr "") = Label (VStr "A") /\
  Enum.reverbose d (VStr "A") [] = Raise (AttributeError "value") /\
  Enum.reverbose d (VStr "A") [VNone] = Raise (AttributeError "value").
Proof. repeat split; reflexivity. Qed.

(** ** Lookups by key *)

Lemma bound_not_absent (V : Type) (d : dict V) (k : pyval) (v : V) :
  bound d k v -> absent d k -> False.
Proof.
  intros (k' & Hin & Hk) Ha. rewrite (Ha _ _ Hin) in Hk. discriminate.
Qed.

(** C5 (as the code has it): indexing returns the label registered for
    the key and raises [KeyError] exactly when the key is absent.
    [get] calls [cls.verbose]: where that is the class method of [Enum],
    [get] raises nothing and gives the label of a key that is present
    and the default for a key that is absent, for every key other than
    [False]; for [False], the default of [verbose], it gives the whole
    listing.  Where an entry or another value of the class is named
    [verbose], [get] raises [TypeError]. *)
Theorem C5_getitem_raises_get_defaults (cls : pyclass) (k default : pyval)
    (Hd : keys_distinct (cls_item_dict cls) = true) :
  (forall e, bound (cls_item_dict cls) k e ->
     MetaEnum.__getitem__ (cls_item_dict cls) k = Ok (value e)) /\
  (raises (MetaEnum.__getitem__ (cls_item_dict cls) k) = true <->
   absent (cls_item_dict cls) k) /\
  (absent (cls_item_dict cls) k ->
   MetaEnum.__getitem__ (cls_item_dict cls) k = Raise (KeyError k)) /\
  (class_getattr cls "verbose" = EnumMethod ->
     (is_False k = false ->
        (forall e, bound (cls_item_dict cls) k e ->
           Enum.get cls k default = Some (Ok (Label (value e)))) /\
        (absent (cls_item_dict cls) k ->
           Enum.get cls k default = Some (Ok (Label default)))) /\
     (is_False k = true ->
        Enum.get cls k default
        = Some (Ok (Enum.verbose (cls_item_dict cls) (VBool false) default)) /\
        exists l, Enum.get cls k default = Some (Ok (Listing l)))) /\
  (class_getattr cls "verbose" = NotCallable ->
     Enum.get cls k default = Some (Raise TypeError)).
Proof.
  set (d := cls_item_dict cls) in *.
  assert (Hpres : forall e, bound d k e -> MetaEnum.__getitem__ d k = Ok (value e)).
  { intros e Hb. unfold MetaEnum.__getitem__, dict_getitem.
    rewrite (bound_dict_get Hd Hb). reflexivity. }
  assert (Habs : absent d k -> MetaEnum.__getitem__ d k = Raise (KeyError k)).
  { intros Ha. apply dict_get_absent in Ha.
    unfold MetaEnum.__getitem__, dict_getitem. rewrite Ha. reflexivity. }
  split; [exact Hpres |]. split; [| split; [exact Habs |]].
  - split.
    + intros Hr. apply dict_get_absent.
      destruct (dict_get k d) as [e |] eqn:G; [| reflexivity].
      rewrite (Hpres e (dict_get_bound _ _ G)) in Hr. discriminate.
    + intros Ha. rewrite (Habs Ha). reflexivity.
  - split.
    + intros Hm. unfold Enum.get, call_method. rewrite Hm. fold d. split.
      * intros Hk. unfold Enum.verbose. rewrite Hk. split.
        -- intros e Hb. rewrite (bound_dict_get Hd Hb). reflexivity.
        -- intros Ha. apply dict_get_absent in Ha. rewrite Ha. reflexivity.
      * intros Hk. destruct k as [| [] | | |]; try discriminate.
        split; [reflexivity |]. unfold Enum.verbose. simpl. eauto.
    + intros Hm. unfold Enum.get, call_method. rewrite Hm. reflexivity.
Qed.

(** C5, at the class of [A = 1] and the absent key [100]. *)
Lemma C5_getitem_raises_get_defaults_witness :
  let a := mkEnumItem (VInt 1) (VStr "A") (VStr "A") VNone (MBag []) in
  let cls := mkClass [[("A", AVal (DVal (VInt 1)))]] [(VInt 1, a)] in
  MetaEnum.new_class false "T" [Some []] [] [("A", AVal (DVal (VInt 1)))] = Ok cls /\
  keys_distinct (cls_item_dict cls) = true /\
  MetaEnum.__getitem__ (cls_item_dict cls) (VInt 1) = Ok (VStr "A") /\
  MetaEnum.__getitem__ (cls_item_dict cls) (VInt 100) = Raise (KeyError (VInt 100)) /\
  Enum.get cls (VInt 100) (VStr "Z") = Some (Ok (Label (VStr "Z"))).
Proof.
  intros a cls.
  assert (Ha : absent (cls_item_dict cls) (VInt 100)).
  { intros k' v [Heq | []]. injection Heq as <- <-. reflexivity. }
  split; [reflexivity |]. split; [reflexivity |]. split; [reflexivity |].
  destruct (@C5_getitem_raises_get_defaults cls (VInt 100) (VStr "Z") eq_refl)
    as (_ & _ & H3 & H4 & _).
  split; [exact (H3 Ha) |].
  exact (proj2 (proj1 (H4 eq_refl) eq_refl) Ha).
Defined.

(** C5 as stated fails twice.  [False] is not a key of the empty
    registry, and [get(False, 'Z')] returns the empty listing, not the
    default.  And in the class declared by [enums = {'verbose': 1}]
    line 44 binds [verbose] to the key [1]: [get] raises [TypeError]. *)
Lemma C5_get_False_returns_listing :
  let empty := mkClass [] [] in
  absent (cls_item_dict empty) (VBool false) /\
  Enum.get empty (VBool false) (VStr "Z") = Some (Ok (Listing [])) /\
  Enum.get empty (VBool false) (VStr "Z") <> Some (Ok (Label (VStr "Z"))) /\
  exists cls,
    MetaEnum.new_class false "T" [Some []] []
      [("enums", ADict [("verbose", DVal (VInt 1))])] = Ok cls /\
    absent (cls_item_dict cls) (VInt 100) /\
    Enum.get cls (VInt 100) (VStr "Z") = Some (Raise TypeError).
Proof.
  intros empty. split; [intros k v [] |]. split; [reflexivity |].
  split; [discriminate |].
  eexists. split; [reflexivity |]. split; [| reflexivity].
  intros k' v [Heq | []]. injection Heq as <- <-. reflexivity.
Qed.

(** C6: [lookup(key)] returns the name registered for the key and
    raises [KeyError] when the key is absent; [lookup(key, get=True)]
    returns the name when the key is present and the key itself when it
    is absent. *)
Theorem C6_lookup_name_or_key (d : registry) (k : pyval)
    (Hd : keys_distinct d = true) :
  (forall e, bound d k e ->
     Enum.lookup d k false = Ok (name e) /\ Enum.lookup d k true = Ok (name e)) /\
  (absent d k ->
     Enum.lookup d k false = Raise (KeyError k) /\ Enum.lookup d k true = Ok k).
Proof.
  unfold Enum.lookup, dict_getitem. split.
  - intros e Hb. rewrite (bound_dict_get Hd Hb). split; reflexivity.
  - intros Ha. apply dict_get_absent in Ha. rewrite Ha. split; reflexivity.
Qed.

(** C6, at the registry of [A = 1]: the key [1] and the absent key
    [100]. *)
Lemma C6_lookup_name_or_key_witness :
  let a := mkEnumItem (VInt 1) (VStr "A") (VStr "A") VNone (MBag []) in
  keys_distinct [(VInt 1, a)] = true /\
  Enum.lookup [(VInt 1, a)] (VInt 1) false = Ok (VStr "A") /\
  Enum.lookup [(VInt 1, a)] (VInt 1) true = Ok (VStr "A") /\
  Enum.lookup [(VInt 1, a)] (VInt 100) false = Raise (KeyError (VInt 100)) /\
  Enum.lookup [(VInt 1, a)] (VInt 100) true = Ok (VInt 100).
Proof.
  intros a.
  assert (Hb : bound [(VInt 1, a)] (VInt 1) a).
  { exists (VInt 1). split; [left; reflexivity | reflexivity]. }
  assert (Ha : absent [(VInt 1, a)] (VInt 100)).
  { intros k' v [Heq | []]. injection Heq as <- <-. reflexivity. }
  split; [reflexivity |].
  destruct (@C6_lookup_name_or_key [(VInt 1, a)] (VInt 1) eq_refl) as [H1 _].
  destruct (@C6_lookup_name_or_key [(VInt 1, a)] (VInt 100) eq_refl) as [_ H2].
  destruct (H1 a Hb) as [H11 H12]. destruct (H2 Ha) as [H21 H22].
  repeat split; assumption.
Defined.

(** ** Registration from the class body *)


(** In the default mode a loop that ends without an error has appended
    one entry for every attribute that is not skipped, in order. *)
Lemma register_default_ok (uc : bool) (enums : list (string * attr)) :
  forall acc r : registry,
  MetaEnum.register false uc acc enums = Ok r ->
  exists items, r = acc ++ items /\
    Forall2 entry_of
      (filter (fun nv => negb (MetaEnum.skipped uc (fst nv) (snd nv))) enums) items.
Proof.
  induction enums as [| [n val] enums IH]; intros acc r; simpl.
  - intros H. injection H as <-. exists []. rewrite app_nil_r. split; constructor.
  - destruct (MetaEnum.skipped uc n val) eqn:E; cbn [negb]; [apply IH |].
    destruct (MetaEnum.normalize n val) as [item0 |] eqn:N; simpl; [| discriminate].
    destruct (setattr_error n (key item0)); [discriminate |].
    destruct (dict_get (key item0) acc) as [old |] eqn:G; [discriminate |].
    rewrite dict_set_absent by exact G. intros H.
    destruct (IH _ _ H) as (items & -> & HF).
    exists ((key item0, set_name item0 (VStr n)) :: items).
    rewrite <- app_assoc. split; [reflexivity |].
    constructor; [| exact HF]. exists item0. auto.
Qed.

Lemma Forall2_In_l (A B : Type) (R : A -> B -> Prop) (l : list A) (m : list B) (x : A) :
  Forall2 R l m -> In x l -> exists y, In y m /\ R x y.
Proof.
  induction 1 as [| a b l m Hab _ IH]; intros Hin; [destruct Hin |].
  destruct Hin as [-> | Hin].
  - exists b. split; [left; reflexivity | exact Hab].
  - destruct (IH Hin) as (y & Hy & HR). exists y. split; [right; exact Hy | exact HR].
Qed.



Lemma skipped_false_iff (uc : bool) (n : string) (val : attr) :
  MetaEnum.skipped uc n val = false <->
  ~ (uc = true /\ startswith_underscore n = true \/ isroutine val = true).
Proof.
  unfold MetaEnum.skipped.
  destruct uc, (startswith_underscore n), (isroutine val); simpl; split; intros H;
    try reflexivity; try discriminate;
    try (intros [[? ?] | ?]; discriminate);
    exfalso; apply H; auto.
Qed.



(** ** Metadata *)

(** The metadata of the entry made of a declaration: the empty dict of
    keyword arguments for a bare value and for a pair, the third element
    for a longer tuple. *)
Lemma normalize_metadata (n : string) (v : pyval) (item : EnumItem) :
  MetaEnum.normalize n (AVal (DVal v)) = Ok item ->
  metadata item =
  match v with
  | VTuple (_ :: _ :: m :: _) => MVal m
  | _ => MBag []
  end.
Proof.
  destruct v as [| b | z | s | l]; simpl; try (intros H; injection H as <-; reflexivity).
  destruct l as [| k [| lbl [| m l]]]; try discriminate.
  - intros H. injection H as <-. reflexivity.
  - unfold py_index. cbn [nth_error bind].
    replace (2 <? Z.of_nat (List.length (k :: lbl :: m :: l))) with true.
    + intros H. injection H as <-. reflexivity.
    + symmetry. apply Z.ltb_lt. simpl List.length. lia.
Qed.

(** After a declaration in the default mode, [metadata(key)] is the
    metadata of the entry made of the attribute with that key. *)
Lemma metadata_of_declared (cname : string) (attrs : list (string * attr))
    (r : registry) (n : string) (val : attr) (item0 : EnumItem) :
  attrs_get "enums" attrs = None ->
  cname <> "Enum" ->
  MetaEnum.__init__ false cname [] attrs = Ok r ->
  In (n, val) attrs ->
  MetaEnum.skipped true n val = false ->
  MetaEnum.normalize n val = Ok item0 ->
  Enum.metadata r [key item0] = Ok (ItemMeta (metadata item0)).
Proof.
  intros Hg Hname Hok Hin Hs Hn.
  pose proof (init_keys_distinct _ _ _ _ Hok) as Hd.
  unfold MetaEnum.__init__, MetaEnum.declared in Hok. simpl in Hok.
  apply String.eqb_neq in Hname. rewrite Hname, Hg in Hok. simpl in Hok.
  destruct (register_default_ok _ _ _ Hok) as (items & -> & HF). simpl in *.
  assert (Hf : In (n, val)
            (filter (fun nv => negb (MetaEnum.skipped true (fst nv) (snd nv))) attrs)).
  { apply filter_In. split; [exact Hin |]. simpl. rewrite Hs. reflexivity. }
  destruct (@Forall2_In_l _ _ _ _ _ _ HF Hf) as ([k e] & Hke & item1 & Hn1 & He & Hk).
  simpl in *. rewrite Hn in Hn1. injection Hn1 as <-. subst k e.
  assert (Hb : bound items (key item0) (set_name item0 (VStr n))).
  { exists (key item0). split; [exact Hke | apply py_eq_refl]. }
  rewrite (bound_dict_get Hd Hb). reflexivity.
Qed.

(** C7 (the code at the failing input): the class of the docstring,
    [A = 1], [B = (2, 'b')], [C = (3, 'c', 'cmeta')].  [metadata(3)] is
    the third element ['cmeta'], and [metadata(1)] and [metadata(2)]
    are the empty dict of keyword arguments, not [None]. *)
Theorem C7_metadata_of_scalar_is_empty_dict :
  let attrs := [("A", AVal (DVal (VInt 1)));
                ("B", AVal (DVal (VTuple [VInt 2; VStr "b"])));
                ("C", AVal (DVal (VTuple [VInt 3; VStr "c"; VStr "cmeta"])))] in
  exists r,
    MetaEnum.__init__ false "TestEnumA" [Some []] attrs = Ok r /\
    Enum.metadata r [VInt 1] = Ok (ItemMeta (MBag [])) /\
    Enum.metadata r [VInt 2] = Ok (ItemMeta (MBag [])) /\
    Enum.metadata r [VInt 3] = Ok (ItemMeta (MVal (VStr "cmeta"))) /\
    Enum.metadata r [VInt 1] <> Ok (ItemMeta (MVal VNone)) /\
    Enum.metadata r [VInt 1] <> Ok (Default VNone).
Proof.
  intros attrs. eexists. split; [reflexivity |].
  repeat split; try reflexivity; discriminate.
Qed.

(** ** Keys *)

Lemma sorted_reverse_max (l : list pyval) :
  (forall k, In k l -> num_of k <> None) ->
  l <> [] ->
  exists h rest m,
    sorted_reverse (fun x => x) l = h :: rest /\ In h l /\ num_of h = Some m /\
    forall k z, In k l -> num_of k = Some z -> z <= m.
Proof.
  induction l as [| x l IH]; intros Hnum Hne; [congruence |].
  destruct (num_of x) as [mx |] eqn:Ex; [| exfalso; apply (Hnum x); simpl; auto].
  destruct l as [| y l].
  - exists x, [], mx. simpl. repeat split; auto.
    intros k z [<- | []] Hk. rewrite Ex in Hk. injection Hk as <-. lia.
  - destruct IH as (h & rest & m & Hs & Hin & Hm & Hmax).
    { intros k Hk. apply Hnum. right. exact Hk. }
    { discriminate. }
    change (sorted_reverse (fun x => x) (x :: y :: l))
      with (insert_desc (fun x => x) x (sorted_reverse (fun x => x) (y :: l))).
    rewrite Hs. simpl insert_desc. rewrite (py_le_num _ _ Hm Ex).
    destruct (m <=? mx) eqn:E.
    + apply Z.leb_le in E. exists x, (h :: rest), mx.
      split; [reflexivity |]. split; [left; reflexivity |]. split; [exact Ex |].
      intros k z [<- | Hk] Hz.
      * rewrite Ex in Hz. injection Hz as <-. lia.
      * pose proof (Hmax k z Hk Hz). lia.
    + apply Z.leb_gt in E. exists h, (insert_desc (fun x => x) x rest), m.
      split; [reflexivity |]. split; [right; exact Hin |]. split; [exact Hm |].
      intros k z [<- | Hk] Hz.
      * rewrite Ex in Hz. injection Hz as <-. lia.
      * exact (Hmax k z Hk Hz).
Qed.

(** C9 (as the code has it): [next_available_key()] calls [cls.keys()].
    Where that is the class method of [Enum] and the keys are numeric,
    it returns [0] for the empty registry and otherwise one more than a
    key that no key exceeds.  Where an entry or another value of the
    class is named [keys], it raises [TypeError]. *)
Theorem C9_next_available_key (cls : pyclass)
    (Hnum : forall k, In k (Enum.keys (cls_item_dict cls)) -> num_of k <> None) :
  (class_getattr cls "keys" = EnumMethod ->
     (cls_item_dict cls = [] -> Enum.next_available_key cls = Some (Ok (VInt 0))) /\
     (cls_item_dict cls <> [] ->
      exists h m, In h (Enum.keys (cls_item_dict cls)) /\ num_of h = Some m /\
        (forall k z, In k (Enum.keys (cls_item_dict cls)) -> num_of k = Some z -> z <= m) /\
        Enum.next_available_key cls = Some (Ok (VInt (m + 1))))) /\
  (class_getattr cls "keys" = NotCallable ->
     Enum.next_available_key cls = Some (Raise TypeError)).
Proof.
  unfold Enum.next_available_key, call_method. split.
  - intros Hm. rewrite Hm. split.
    + intros ->. reflexivity.
    + intros Hne.
      assert (Hk : Enum.keys (cls_item_dict cls) <> []).
      { destruct (cls_item_dict cls); [congruence | discriminate]. }
      destruct (sorted_reverse_max Hnum Hk) as (h & rest & m & Hs & Hin & Hh & Hmax).
      exists h, m. split; [exact Hin |]. split; [exact Hh |]. split; [exact Hmax |].
      rewrite Hs. unfold py_add1. rewrite Hh. reflexivity.
  - intros Hm. rewrite Hm. reflexivity.
Qed.

(** C9, at the class of [B = 2], [C = 3], [A = 1], and at the class
    without entries. *)
Lemma C9_next_available_key_witness :
  let e := fun z => mkEnumItem (VInt z) (VStr "x") (VStr "X") VNone (MBag []) in
  let cls := mkClass [[]] [(VInt 2, e 2); (VInt 3, e 3); (VInt 1, e 1)] in
  (forall k, In k (Enum.keys (cls_item_dict cls)) -> num_of k <> None) /\
  class_getattr cls "keys" = EnumMethod /\
  Enum.next_available_key cls = Some (Ok (VInt 4)) /\
  Enum.next_available_key (mkClass [[]] []) = Some (Ok (VInt 0)).
Proof.
  intros e cls.
  assert (Hnum : forall k, In k (Enum.keys (cls_item_dict cls)) -> num_of k <> None).
  { intros k [<- | [<- | [<- | []]]]; discriminate. }
  split; [exact Hnum |]. split; [reflexivity |].
  destruct (@C9_next_available_key cls Hnum) as [H _].
  destruct (H eq_refl) as [_ H'].
  destruct H' as (h & m & Hin & Hm & Hmax & Heq); [discriminate |].
  split; [| reflexivity]. rewrite Heq.
  assert (H3 : 3 <= m).
  { apply (Hmax (VInt 3)); [right; left; reflexivity | reflexivity]. }
  destruct Hin as [<- | [<- | [<- | []]]]; simpl in Hm; injection Hm as <-;
    try reflexivity; exfalso; lia.
Defined.

(** C9 as stated fails: the class declared by [keys = 1] has the one
    numeric key [1], and line 44 binds [keys] to it:
    [next_available_key()] raises [TypeError], where the claim has
    [2]. *)
Lemma C9_entry_named_keys_raises :
  exists cls,
    MetaEnum.new_class false "T" [Some []] [] [("keys", AVal (DVal (VInt 1)))] = Ok cls /\
    Enum.keys (cls_item_dict cls) = [VInt 1] /\
    (forall k, In k (Enum.keys (cls_item_dict cls)) -> num_of k <> None) /\
    Enum.next_available_key cls = Some (Raise TypeError).
Proof.
  eexists. split; [reflexivity |]. split; [reflexivity |]. split; [| reflexivity].
  intros k [<- | []]. discriminate.
Qed.

Lemma fold_left_max_spec (l : list Z) :
  forall x, In (fold_left Z.max l x) (x :: l) /\
            forall y, In y (x :: l) -> y <= fold_left Z.max l x.
Proof.
  induction l as [| a l IH]; intros x; simpl.
  - split; [auto |]. intros y [<- | []]. lia.
  - destruct (IH (Z.max x a)) as [Hin Hmax]. split.
    + destruct Hin as [Heq | Hin]; [| auto].
      rewrite <- Heq. destruct (Z.max_spec x a) as [[_ ->] | [_ ->]]; auto.
    + intros y Hy.
      assert (Hxa : Z.max x a <= fold_left Z.max l (Z.max x a)) by (apply Hmax; left; reflexivity).
      destruct Hy as [<- | [<- | Hy]]; [lia | lia |].
      apply Hmax. right. exact Hy.
Qed.

(** C10 (as the code has it): [max_length()] calls [cls.keys()].
    Where that is the class method of [Enum], it raises [ValueError]
    on the empty registry and otherwise returns the length of [str(k)]
    for a key [k], which the length of no key exceeds.  Where an entry
    or another value of the class is named [keys], it raises
    [TypeError]. *)
Theorem C10_max_length (cls : pyclass) :
  (class_getattr cls "keys" = EnumMethod ->
     match Enum.max_length cls with
     | Some (Ok m) =>
         cls_item_dict cls <> [] /\
         (exists k, In k (Enum.keys (cls_item_dict cls)) /\ py_len (py_str k) = m) /\
         (forall k, In k (Enum.keys (cls_item_dict cls)) -> py_len (py_str k) <= m)
     | Some (Raise e) => cls_item_dict cls = [] /\ e = ValueError
     | None => False
     end) /\
  (class_getattr cls "keys" = NotCallable ->
     Enum.max_length cls = Some (Raise TypeError)).
Proof.
  unfold Enum.max_length, call_method. split; intros Hm; rewrite Hm; [| reflexivity].
  destruct (cls_item_dict cls) as [| [k0 e0] d]; [split; reflexivity |].
  unfold Enum.keys, dict_keys. simpl map. unfold py_max.
  set (f := fun x => py_len (py_str x)).
  destruct (fold_left_max_spec (map f (map fst d)) (f k0)) as [Hin Hmax].
  split; [discriminate |]. split.
  - destruct Hin as [Heq | Hin].
    + exists k0. split; [left; reflexivity | exact Heq].
    + apply in_map_iff in Hin. destruct Hin as (k & Hk & Hin).
      exists k. split; [right; exact Hin | exact Hk].
  - intros k Hk. apply Hmax. destruct Hk as [<- | Hk]; [left; reflexivity |].
    right. exact (in_map f _ _ Hk).
Qed.

(** C10, at the class of the keys [7] and [123], and at the class
    without entries. *)
Lemma C10_max_length_witness :
  let e := fun z => mkEnumItem (VInt z) (VStr "x") (VStr "X") VNone (MBag []) in
  let cls := mkClass [[]] [(VInt 7, e 7); (VInt 123, e 123)] in
  class_getattr cls "keys" = EnumMethod /\
  Enum.max_length cls = Some (Ok 3) /\
  Enum.max_length (mkClass [[]] []) = Some (Raise ValueError) /\
  match Enum.max_length cls with
  | Some (Ok m) =>
      cls_item_dict cls <> [] /\
      (exists k, In k (Enum.keys (cls_item_dict cls)) /\ py_len (py_str k) = m) /\
      (forall k, In k (Enum.keys (cls_item_dict cls)) -> py_len (py_str k) <= m)
  | Some (Raise e) => cls_item_dict cls = [] /\ e = ValueError
  | None => False
  end.
Proof.
  intros e cls. split; [reflexivity |]. split; [reflexivity |]. split; [reflexivity |].
  exact (proj1 (@C10_max_length cls) eq_refl).
Defined.

(** C10 as stated fails: the class declared by [keys = 1] has a
    registry that is not empty, and line 44 binds [keys] to the key
    [1]: [max_length()] raises [TypeError], where the claim has the
    length [1]. *)
Lemma C10_entry_named_keys_raises :
  exists cls,
    MetaEnum.new_class false "T" [Some []] [] [("keys", AVal (DVal (VInt 1)))] = Ok cls /\
    Enum.keys (cls_item_dict cls) = [VInt 1] /\
    py_len (py_str (VInt 1)) = 1 /\
    Enum.max_length cls = Some (Raise TypeError).
Proof.
  eexists. repeat split; reflexivity.
Qed.

(** * Further properties of the builder and of the queries *)

(** ** Well-formed registries *)

Lemma keys_consistent_In (d : registry) (k : pyval) (e : EnumItem) :
  keys_consistent d = true -> In (k, e) d -> py_eq k (key e) = true.
Proof.
  unfold keys_consistent. rewrite forallb_forall. intros H Hin. exact (H (k, e) Hin).
Qed.

Lemma keys_consistent_dict_set (d : registry) (k : pyval) (e : EnumItem) :
  keys_consistent d = true -> py_eq k (key e) = true ->
  keys_consistent (dict_set k e d) = true.
Proof.
  unfold keys_consistent. intros Hd Hk.
  induction d as [| [k0 e0] d IH]; simpl in *.
  - rewrite Hk. reflexivity.
  - apply andb_true_iff in Hd. destruct Hd as [H0 Hd].
    destruct (py_eq k0 k) eqn:E; simpl.
    + rewrite (py_eq_trans _ _ _ E Hk), Hd. reflexivity.
    + rewrite H0, (IH Hd). reflexivity.
Qed.

Lemma keys_consistent_dict_update (d other : registry) :
  keys_consistent d = true -> keys_consistent other = true ->
  keys_consistent (dict_update d other) = true.
Proof.
  unfold dict_update. revert d.
  induction other as [| [k e] other IH]; intros d Hd Ho; simpl; [exact Hd |].
  unfold keys_consistent in Ho. simpl in Ho. apply andb_true_iff in Ho.
  destruct Ho as [Hk Ho]. apply IH; [| exact Ho].
  apply keys_consistent_dict_set; assumption.
Qed.

Lemma merge_bases_keys_consistent (permissive : bool) (bases : list (option registry)) :
  forall acc r : registry,
  bases_ok bases -> keys_consistent acc = true ->
  MetaEnum.merge_bases permissive acc bases = Ok r -> keys_consistent r = true.
Proof.
  induction bases as [| b bases IH]; intros acc r Hb Hacc; simpl.
  - intros H. injection H as <-. exact Hacc.
  - assert (Hb' : bases_ok bases).
    { intros b0 Hin. apply Hb. right. exact Hin. }
    destruct b as [b |]; simpl.
    + destruct (MetaEnum.check_base permissive acc (dict_items b)); simpl; [| discriminate].
      apply IH; [exact Hb' |].
      apply keys_consistent_dict_update; [exact Hacc |].
      apply (Hb b). left. reflexivity.
    + apply IH; assumption.
Qed.

Lemma register_keys_consistent (permissive uc : bool) (enums : list (string * attr)) :
  forall acc r : registry,
  keys_consistent acc = true ->
  MetaEnum.register permissive uc acc enums = Ok r -> keys_consistent r = true.
Proof.
  induction enums as [| [n val] enums IH]; intros acc r Hacc; simpl.
  - intros H. injection H as <-. exact Hacc.
  - destruct (MetaEnum.skipped uc n val); [apply IH; exact Hacc |].
    destruct (MetaEnum.normalize n val) as [item0 |]; simpl; [| discriminate].
    assert (Hs : keys_consistent
                   (dict_set (key item0) (set_name item0 (VStr n)) acc) = true).
    { apply keys_consistent_dict_set; [exact Hacc | apply py_eq_refl]. }
    destruct (setattr_error n (key item0)); [discriminate |].
    destruct (dict_get (key item0) acc) as [old |].
    + destruct (negb permissive && item_ne_str old n); [discriminate |].
      apply IH. exact Hs.
    + apply IH. exact Hs.
Qed.

(** X1: the registry of a class that is declared without an error is a
    well-formed dict of entries, in both modes: no two of its keys are
    equal, and, the registries of the bases being so, every entry is
    stored under a key equal to its own [key]. *)
Theorem X1_registry_well_formed (permissive : bool) (cname : string)
    (bases : list (option registry)) (attrs : list (string * attr)) (r : registry)
    (Hbases : bases_ok bases)
    (Hok : MetaEnum.__init__ permissive cname bases attrs = Ok r) :
  keys_distinct r = true /\ keys_consistent r = true.
Proof.
  split; [exact (init_keys_distinct _ _ _ _ Hok) |].
  unfold MetaEnum.__init__ in Hok.
  destruct (MetaEnum.merge_bases permissive [] bases) as [acc |] eqn:E; simpl in Hok;
    [| discriminate].
  destruct (MetaEnum.declared cname attrs) as [[uc enums] |]; simpl in Hok;
    [| discriminate].
  eapply register_keys_consistent; [| exact Hok].
  eapply merge_bases_keys_consistent; [exact Hbases | | exact E]. reflexivity.
Qed.

(** X1, at the class [A = 1] declared on a base that has [B = 2]. *)
Lemma X1_registry_well_formed_witness :
  let b := mkEnumItem (VInt 2) (VStr "B") (VStr "B") VNone (MBag []) in
  let a := mkEnumItem (VInt 1) (VStr "A") (VStr "A") VNone (MBag []) in
  bases_ok [Some [(VInt 2, b)]] /\
  MetaEnum.__init__ false "T" [Some [(VInt 2, b)]] [("A", AVal (DVal (VInt 1)))]
  = Ok [(VInt 2, b); (VInt 1, a)] /\
  keys_distinct [(VInt 2, b); (VInt 1, a)] = true /\
  keys_consistent [(VInt 2, b); (VInt 1, a)] = true.
Proof.
  intros b a.
  assert (Hb : bases_ok [Some [(VInt 2, b)]]).
  { intros b0 [Heq | []]. injection Heq as <-. split; reflexivity. }
  assert (Hok : MetaEnum.__init__ false "T" [Some [(VInt 2, b)]]
                  [("A", AVal (DVal (VInt 1)))] = Ok [(VInt 2, b); (VInt 1, a)])
    by reflexivity.
  split; [exact Hb |]. split; [exact Hok |].
  exact (@X1_registry_well_formed false "T" _ _ _ Hb Hok).
Defined.

(** ** Declaration and lookup *)

Lemma dict_get_app_l (V : Type) (d l : dict V) (k : pyval) (v : V) :
  dict_get k d = Some v -> dict_get k (d ++ l) = Some v.
Proof.
  induction d as [| [k0 v0] d IH]; simpl; [discriminate |].
  destruct (py_eq k0 k); [auto | exact IH].
Qed.

Lemma dict_get_py_eq (V : Type) (d : dict V) (k k' : pyval) :
  py_eq k k' = true -> dict_get k d = dict_get k' d.
Proof.
  intros Hk. induction d as [| [k0 v0] d IH]; simpl; [reflexivity |].
  destruct (py_eq k0 k) eqn:E.
  - rewrite (py_eq_trans _ _ _ E Hk). reflexivity.
  - rewrite py_eq_sym in Hk.
    destruct (py_eq k0 k') eqn:F; [| exact IH].
    rewrite (py_eq_trans _ _ _ F Hk) in E. discriminate.
Qed.

(** What the entry made of a declaration holds, for every shape. *)
Lemma normalize_shape (n : string) (val : attr) (item : EnumItem) :
  MetaEnum.normalize n val = Ok item ->
  match val with
  | AVal (DItem e) => item = e
  | AVal (DVal (VTuple l)) =>
      exists k lbl rest, l = k :: lbl :: rest /\
        key item = k /\ value item = lbl /\ sort item = k
  | AVal (DVal v) => key item = v /\ value item = VStr n /\ sort item = VNone
  | AVal (DDict d) =>
      intdict_get 0 d = Some (key item) /\ intdict_get 1 d = Some (value item) /\
      sort item = key item /\
      metadata item = match intdict_get 2 d with
                      | Some m => if 2 <? Z.of_nat (List.length d) then MVal m else MBag []
                      | None => MBag []
                      end
  | _ => False
  end.
Proof.
  destruct val as [[e | | v | d] | t]; simpl; try discriminate.
  - intros H. injection H as <-. reflexivity.
  - destruct v as [| b | z | s | l];
      try (intros H; injection H as <-; repeat split; reflexivity).
    destruct l as [| k [| lbl rest]]; try discriminate.
    unfold py_index. cbn [nth_error bind].
    intros H. exists k, lbl, rest. split; [reflexivity |].
    destruct (2 <? Z.of_nat (List.length (k :: lbl :: rest))).
    + destruct rest as [| m rest]; [discriminate |].
      cbn [nth_error bind] in H. injection H as <-. repeat split; reflexivity.
    + injection H as <-. repeat split; reflexivity.
  - unfold intdict_getitem.
    destruct (intdict_get 0 d) as [k |]; [| discriminate].
    destruct (intdict_get 1 d) as [lbl |]; [| discriminate]. cbn [bind].
    destruct (2 <? Z.of_nat (List.length d)).
    + destruct (intdict_get 2 d) as [m |]; [| discriminate]. cbn [bind].
      intros H. injection H as <-. repeat split; reflexivity.
    + intros H. injection H as <-. destruct (intdict_get 2 d); repeat split; reflexivity.
Qed.

(** A binding of the accumulator outlives the loop when no later
    declaration has an equal key. *)
Lemma register_preserves (permissive uc : bool) (k : pyval) (v : EnumItem)
    (enums : list (string * attr)) :
  forall acc r : registry,
  MetaEnum.register permissive uc acc enums = Ok r ->
  dict_get k acc = Some v ->
  (forall n val item1, In (n, val) enums -> MetaEnum.skipped uc n val = false ->
     MetaEnum.normalize n val = Ok item1 -> py_eq (key item1) k = false) ->
  dict_get k r = Some v.
Proof.
  induction enums as [| [n val] enums IH]; intros acc r Hr Hg Hlater; simpl in Hr.
  - injection Hr as <-. exact Hg.
  - assert (Hlater' : forall n' val' item1, In (n', val') enums ->
              MetaEnum.skipped uc n' val' = false ->
              MetaEnum.normalize n' val' = Ok item1 -> py_eq (key item1) k = false).
    { intros n' val' item1 Hin. apply Hlater. right. exact Hin. }
    destruct (MetaEnum.skipped uc n val) eqn:Hs; [exact (IH _ _ Hr Hg Hlater') |].
    destruct (MetaEnum.normalize n val) as [item0 |] eqn:Hn; simpl in Hr; [| discriminate].
    assert (Hg' : dict_get k (dict_set (key item0) (set_name item0 (VStr n)) acc) = Some v).
    { rewrite dict_get_set.
      rewrite (Hlater n val item0 (or_introl eq_refl) Hs Hn). exact Hg. }
    destruct (setattr_error n (key item0)); [discriminate |].
    destruct (dict_get (key item0) acc) as [old |].
    + destruct (negb permissive && item_ne_str old n); [discriminate |].
      exact (IH _ _ Hr Hg' Hlater').
    + exact (IH _ _ Hr Hg' Hlater').
Qed.

(** In either mode, a declaration that no later declaration of the body
    follows with an equal key is the entry bound to its key. *)
Lemma register_get_last (permissive uc : bool) (n : string) (val : attr)
    (item0 : EnumItem) (post pre : list (string * attr)) :
  forall acc r : registry,
  MetaEnum.register permissive uc acc (pre ++ (n, val) :: post) = Ok r ->
  MetaEnum.skipped uc n val = false ->
  MetaEnum.normalize n val = Ok item0 ->
  (forall n' val' item1, In (n', val') post -> MetaEnum.skipped uc n' val' = false ->
     MetaEnum.normalize n' val' = Ok item1 -> py_eq (key item1) (key item0) = false) ->
  dict_get (key item0) r = Some (set_name item0 (VStr n)).
Proof.
  induction pre as [| [n1 val1] pre IH]; intros acc r Hr Hs Hn Hlater.
  - simpl in Hr. rewrite Hs, Hn in Hr. simpl in Hr.
    assert (Hg : dict_get (key item0)
                   (dict_set (key item0) (set_name item0 (VStr n)) acc)
                 = Some (set_name item0 (VStr n))).
    { rewrite dict_get_set, py_eq_refl. reflexivity. }
    destruct (setattr_error n (key item0)); [discriminate |].
    destruct (dict_get (key item0) acc) as [old |].
    + destruct (negb permissive && item_ne_str old n); [discriminate |].
      eapply register_preserves; [exact Hr | exact Hg | exact Hlater].
    + eapply register_preserves; [exact Hr | exact Hg | exact Hlater].
  - simpl in Hr.
    destruct (MetaEnum.skipped uc n1 val1); [exact (IH _ _ Hr Hs Hn Hlater) |].
    destruct (MetaEnum.normalize n1 val1) as [item1 |]; simpl in Hr; [| discriminate].
    destruct (setattr_error n1 (key item1)); [discriminate |].
    destruct (dict_get (key item1) acc) as [old |].
    + destruct (negb permissive && item_ne_str old n1); [discriminate |].
      exact (IH _ _ Hr Hs Hn Hlater).
    + exact (IH _ _ Hr Hs Hn Hlater).
Qed.

(** In the default mode every declaration that is not skipped is the
    entry bound to its key, whatever the bases. *)
Lemma declared_entry_bound (cname : string) (bases : list (option registry))
    (attrs : list (string * attr)) (r : registry) (uc : bool)
    (enums : list (string * attr)) (n : string) (val : attr) :
  MetaEnum.__init__ false cname bases attrs = Ok r ->
  MetaEnum.declared cname attrs = Ok (uc, enums) ->
  In (n, val) enums ->
  MetaEnum.skipped uc n val = false ->
  exists item0, MetaEnum.normalize n val = Ok item0 /\
    dict_get (key item0) r = Some (set_name item0 (VStr n)).
Proof.
  intros Hok Hd Hin Hs.
  pose proof (init_keys_distinct _ _ _ _ Hok) as Hdist.
  unfold MetaEnum.__init__ in Hok.
  destruct (MetaEnum.merge_bases false [] bases) as [acc |]; simpl in Hok; [| discriminate].
  rewrite Hd in Hok. simpl in Hok.
  destruct (register_default_ok _ _ _ Hok) as (items & -> & HF).
  assert (Hf : In (n, val)
            (filter (fun nv => negb (MetaEnum.skipped uc (fst nv) (snd nv))) enums)).
  { apply filter_In. split; [exact Hin |]. simpl. rewrite Hs. reflexivity. }
  destruct (@Forall2_In_l _ _ _ _ _ _ HF Hf) as ([k e] & Hke & item0 & Hn & He & Hk).
  simpl in Hn, He, Hk. subst k e. exists item0. split; [exact Hn |].
  apply bound_dict_get; [exact Hdist |].
  exists (key item0). split; [| apply py_eq_refl].
  apply in_or_app. right. exact Hke.
Qed.

Lemma queries_of_bound (r : registry) (k : pyval) (e : EnumItem) :
  dict_get k r = Some e ->
  Enum.lookup r k false = Ok (name e) /\
  MetaEnum.__getitem__ r k = Ok (value e) /\
  Enum.metadata r [k] = Ok (ItemMeta (metadata e)).
Proof.
  intros Hg. unfold Enum.lookup, MetaEnum.__getitem__, Enum.metadata, dict_getitem.
  rewrite Hg. repeat split; reflexivity.
Qed.

(** X2: in the default mode, after a class is declared without an
    error, every declaration of its body that is not skipped can be
    read back, whatever the bases: [lookup(key)] is the name of the
    attribute, [Enum[key]] the label and [metadata(key)] the metadata.
    For a bare value the key is the value and the label the name; for
    a tuple they are its first two elements, the metadata being the
    third if there is one; a dict with integers as keys is indexed in
    the same way, by its keys [0], [1] and [2]; an [EnumItem] keeps its
    own.  A routine or a dict with names as keys is never
    registered. *)
Theorem X2_declared_entry_round_trip (cname : string)
    (bases : list (option registry)) (attrs : list (string * attr)) (r : registry)
    (uc : bool) (enums : list (string * attr)) (n : string) (val : attr)
    (Hok : MetaEnum.__init__ false cname bases attrs = Ok r)
    (Hd : MetaEnum.declared cname attrs = Ok (uc, enums))
    (Hin : In (n, val) enums)
    (Hs : MetaEnum.skipped uc n val = false) :
  match val with
  | AVal (DItem e) =>
      Enum.lookup r (key e) false = Ok (VStr n) /\
      MetaEnum.__getitem__ r (key e) = Ok (value e) /\
      Enum.metadata r [key e] = Ok (ItemMeta (metadata e))
  | AVal (DVal (VTuple l)) =>
      exists k lbl rest, l = k :: lbl :: rest /\
        Enum.lookup r k false = Ok (VStr n) /\
        MetaEnum.__getitem__ r k = Ok lbl /\
        Enum.metadata r [k]
        = Ok (ItemMeta (match rest with m :: _ => MVal m | [] => MBag [] end))
  | AVal (DVal v) =>
      Enum.lookup r v false = Ok (VStr n) /\
      MetaEnum.__getitem__ r v = Ok (VStr n) /\
      Enum.metadata r [v] = Ok (ItemMeta (MBag []))
  | AVal (DDict d) =>
      exists k lbl, intdict_get 0 d = Some k /\ intdict_get 1 d = Some lbl /\
        Enum.lookup r k false = Ok (VStr n) /\
        MetaEnum.__getitem__ r k = Ok lbl /\
        Enum.metadata r [k]
        = Ok (ItemMeta (match intdict_get 2 d with
                        | Some m => if 2 <? Z.of_nat (List.length d) then MVal m
                                    else MBag []
                        | None => MBag []
                        end))
  | _ => False
  end.
Proof.
  destruct (declared_entry_bound _ _ _ _ _ Hok Hd Hin Hs) as (item0 & Hn & Hg).
  destruct (queries_of_bound _ _ Hg) as (H1 & H2 & H3). simpl in H1, H2, H3.
  pose proof (normalize_shape _ _ Hn) as Hshape.
  destruct val as [[e | | v | d] | t]; try contradiction.
  - subst item0. auto.
  - pose proof (normalize_metadata _ _ Hn) as Hm.
    destruct v as [| b | z | s | l].
    1-4: destruct Hshape as (Hk & Hv & _); rewrite Hk in *; rewrite Hv in *;
         rewrite Hm in *; auto.
    destruct Hshape as (k & lbl & rest & -> & Hk & Hv & _).
    exists k, lbl, rest. rewrite Hk in *. rewrite Hv in *. rewrite Hm in *.
    split; [reflexivity |]. destruct rest; auto.
  - destruct Hshape as (Hk & Hv & _ & Hm).
    exists (key item0), (value item0). rewrite <- Hm. auto.
Qed.

(** X2, at the class of the docstring with a dict added: the
    attributes [C = (3, 'c', 'cmeta')] and [D = {0: 5, 1: 'five'}]. *)
Lemma X2_declared_entry_round_trip_witness :
  let attrs := [("A", AVal (DVal (VInt 1)));
                ("B", AVal (DVal (VTuple [VInt 2; VStr "b"])));
                ("C", AVal (DVal (VTuple [VInt 3; VStr "c"; VStr "cmeta"])));
                ("D", AVal (DDict [(0, VInt 5); (1, VStr "five")]))] in
  exists r,
    MetaEnum.__init__ false "TestEnumA" [Some []] attrs = Ok r /\
    MetaEnum.declared "TestEnumA" attrs = Ok (true, attrs) /\
    Enum.lookup r (VInt 3) false = Ok (VStr "C") /\
    MetaEnum.__getitem__ r (VInt 3) = Ok (VStr "c") /\
    Enum.metadata r [VInt 3] = Ok (ItemMeta (MVal (VStr "cmeta"))) /\
    Enum.lookup r (VInt 5) false = Ok (VStr "D") /\
    MetaEnum.__getitem__ r (VInt 5) = Ok (VStr "five").
Proof.
  intros attrs. eexists.
  assert (Hok : MetaEnum.__init__ false "TestEnumA" [Some []] attrs = Ok _)
    by reflexivity.
  assert (Hd : MetaEnum.declared "TestEnumA" attrs = Ok (true, attrs)) by reflexivity.
  split; [exact Hok |]. split; [exact Hd |].
  assert (Hin : In ("C", AVal (DVal (VTuple [VInt 3; VStr "c"; VStr "cmeta"]))) attrs)
    by (simpl; auto).
  assert (Hin' : In ("D", AVal (DDict [(0, VInt 5); (1, VStr "five")])) attrs)
    by (simpl; auto).
  destruct (@X2_declared_entry_round_trip "TestEnumA" [Some []] attrs _ true attrs
              "C" _ Hok Hd Hin eq_refl)
    as (k & lbl & rest & Hl & H1 & H2 & H3).
  injection Hl as <- <- <-.
  destruct (@X2_declared_entry_round_trip "TestEnumA" [Some []] attrs _ true attrs
              "D" _ Hok Hd Hin' eq_refl)
    as (k' & lbl' & Hk' & Hl' & H1' & H2' & _).
  injection Hk' as <-. injection Hl' as <-. auto 8.
Defined.

(** X3: in both modes, and so in the permissive one, where a key may be
    declared again, a declaration of the body that is not skipped and
    that no later declaration follows with an equal key is the entry of
    its key: the last declaration of a key wins. *)
Theorem X3_last_declaration_wins (permissive : bool) (cname : string)
    (bases : list (option registry)) (attrs : list (string * attr)) (r : registry)
    (uc : bool) (pre post : list (string * attr)) (n : string) (val : attr)
    (item0 : EnumItem)
    (Hok : MetaEnum.__init__ permissive cname bases attrs = Ok r)
    (Hd : MetaEnum.declared cname attrs = Ok (uc, pre ++ (n, val) :: post))
    (Hs : MetaEnum.skipped uc n val = false)
    (Hn : MetaEnum.normalize n val = Ok item0)
    (Hlater : forall n' val' item1, In (n', val') post ->
       MetaEnum.skipped uc n' val' = false ->
       MetaEnum.normalize n' val' = Ok item1 ->
       py_eq (key item1) (key item0) = false) :
  Enum.lookup r (key item0) false = Ok (VStr n) /\
  MetaEnum.__getitem__ r (key item0) = Ok (value item0) /\
  Enum.metadata r [key item0] = Ok (ItemMeta (metadata item0)).
Proof.
  unfold MetaEnum.__init__ in Hok.
  destruct (MetaEnum.merge_bases permissive [] bases) as [acc |]; simpl in Hok;
    [| discriminate].
  rewrite Hd in Hok. simpl in Hok.
  assert (Hg : dict_get (key item0) r = Some (set_name item0 (VStr n))).
  { eapply register_get_last; [exact Hok | exact Hs | exact Hn | exact Hlater]. }
  exact (queries_of_bound _ _ Hg).
Qed.

(** X3, at a permissive class on a base that binds [1] to [A], with
    the body [B = 1], [C = (1, 'c')]: the key [1] is bound to [C]. *)
Lemma X3_last_declaration_wins_witness :
  let a := mkEnumItem (VInt 1) (VStr "A") (VStr "A") VNone (MBag []) in
  let attrs := [("B", AVal (DVal (VInt 1)));
                ("C", AVal (DVal (VTuple [VInt 1; VStr "c"])))] in
  exists r,
    MetaEnum.__init__ true "T" [Some [(VInt 1, a)]] attrs = Ok r /\
    Enum.lookup r (VInt 1) false = Ok (VStr "C") /\
    MetaEnum.__getitem__ r (VInt 1) = Ok (VStr "c") /\
    Enum.keys r = [VInt 1].
Proof.
  intros a attrs. eexists.
  assert (Hok : MetaEnum.__init__ true "T" [Some [(VInt 1, a)]] attrs = Ok _)
    by reflexivity.
  split; [exact Hok |].
  destruct (@X3_last_declaration_wins true "T" [Some [(VInt 1, a)]] attrs _ true
              [("B", AVal (DVal (VInt 1)))] [] "C"
              (AVal (DVal (VTuple [VInt 1; VStr "c"])))
              (EnumItem_init (VInt 1) (VStr "c") VNone (VInt 1) [])
              Hok eq_refl eq_refl eq_refl)
    as (H1 & H2 & _).
  { intros n' val' item1 []. }
  split; [exact H1 |]. split; [exact H2 | reflexivity].
Defined.

(** ** Inheritance *)

Lemma dict_update_get_cases (V : Type) (other : dict V) :
  forall (d : dict V) (k : pyval) (v : V),
  dict_get k (dict_update d other) = Some v ->
  bound other k v \/ dict_get k d = Some v.
Proof.
  unfold dict_update.
  induction other as [| [k0 v0] other IH]; intros d k v H; simpl in H; [right; exact H |].
  destruct (IH _ _ _ H) as [(k' & Hin & Hk) | Hg].
  - left. exists k'. split; [right; exact Hin | exact Hk].
  - rewrite dict_get_set in Hg. destruct (py_eq k0 k) eqn:E; [| right; exact Hg].
    injection Hg as <-. left. exists k0. split; [left; reflexivity | exact E].
Qed.

Lemma dict_update_keeps (V : Type) (other : dict V) :
  forall (d : dict V) (k : pyval) (v : V),
  dict_get k d = Some v -> exists v', dict_get k (dict_update d other) = Some v'.
Proof.
  unfold dict_update.
  induction other as [| [k0 v0] other IH]; intros d k v H; simpl; [eauto |].
  destruct (py_eq k0 k) eqn:E.
  - apply (IH _ k v0). rewrite dict_get_set, E. reflexivity.
  - apply (IH _ k v). rewrite dict_get_set, E. exact H.
Qed.

(** A successful merge in the default mode leaves every key of the
    accumulator bound to an entry with an equal key and label. *)
Lemma merge_base_step (acc acc' : registry) (base : option registry)
    (k : pyval) (e0 : EnumItem) :
  MetaEnum.merge_base false acc base = Ok acc' ->
  dict_get k acc = Some e0 ->
  exists e1, dict_get k acc' = Some e1 /\
    py_eq (key e1) (key e0) = true /\ py_eq (value e1) (value e0) = true.
Proof.
  intros Hm Hg. destruct base as [b |]; simpl in Hm.
  - unfold dict_items in Hm. pose proof (check_base_spec false acc b) as Hc.
    destruct (MetaEnum.check_base false acc b); simpl in Hm; [| discriminate].
    injection Hm as <-. destruct Hc as [Hc | Hc]; [discriminate |].
    destruct (dict_update_keeps b _ _ Hg) as [e1 He1]. exists e1.
    split; [exact He1 |].
    destruct (dict_update_get_cases _ _ _ He1) as [(k' & Hin & Hk) | Hg'].
    + rewrite <- (@dict_get_py_eq _ acc _ _ Hk) in Hg.
      destruct (Hc _ _ _ Hin Hg) as [H1 H2].
      rewrite py_eq_sym in H1. rewrite py_eq_sym in H2. auto.
    + rewrite Hg in Hg'. injection Hg' as <-. rewrite !py_eq_refl. auto.
  - injection Hm as <-. exists e0. rewrite !py_eq_refl. auto.
Qed.

Lemma merge_bases_inherits (bases : list (option registry)) :
  forall acc r : registry,
  MetaEnum.merge_bases false acc bases = Ok r ->
  (forall k e0, dict_get k acc = Some e0 ->
     exists e1, dict_get k r = Some e1 /\
       py_eq (key e1) (key e0) = true /\ py_eq (value e1) (value e0) = true) /\
  (forall b k e0, In (Some b) bases -> keys_distinct b = true ->
     dict_get k b = Some e0 ->
     exists e1, dict_get k r = Some e1 /\
       py_eq (key e1) (key e0) = true /\ py_eq (value e1) (value e0) = true).
Proof.
  induction bases as [| base bases IH]; intros acc r Hm; simpl in Hm.
  - injection Hm as <-. split.
    + intros k e0 Hg. exists e0. rewrite !py_eq_refl. auto.
    + intros b k e0 [].
  - destruct (MetaEnum.merge_base false acc base) as [acc' |] eqn:E; simpl in Hm;
      [| discriminate].
    destruct (IH _ _ Hm) as [IHa IHb].
    assert (Hchain : forall k e0 e1, dict_get k acc' = Some e1 ->
              py_eq (key e1) (key e0) = true -> py_eq (value e1) (value e0) = true ->
              exists e2, dict_get k r = Some e2 /\
                py_eq (key e2) (key e0) = true /\ py_eq (value e2) (value e0) = true).
    { intros k e0 e1 Hg1 Hk Hv.
      destruct (IHa _ _ Hg1) as (e2 & Hg2 & Hk2 & Hv2). exists e2.
      split; [exact Hg2 |]. split; eapply py_eq_trans; eassumption. }
    split.
    + intros k e0 Hg.
      destruct (@merge_base_step _ _ _ _ _ E Hg) as (e1 & Hg1 & Hk & Hv).
      exact (Hchain _ _ _ Hg1 Hk Hv).
    + intros b k e0 [Heq | Hin] Hd Hg; [| exact (IHb _ _ _ Hin Hd Hg)].
      subst base. simpl in E. unfold dict_items in E.
      destruct (MetaEnum.check_base false acc b); simpl in E; [| discriminate].
      injection E as <-.
      apply (Hchain k e0 e0); [| apply py_eq_refl | apply py_eq_refl].
      rewrite dict_update_get by exact Hd. rewrite Hg. reflexivity.
Qed.

(** X4: in the default mode a class that is declared without an error
    has every key of each of its bases, with an equal label: for every
    key [k] of a base, [Sub[k] == Base[k]].  (The name may be that of
    another base that binds the same key to the same label.) *)
Theorem X4_inherited_labels (cname : string) (bases : list (option registry))
    (attrs : list (string * attr)) (r b : registry) (k lbl : pyval)
    (Hok : MetaEnum.__init__ false cname bases attrs = Ok r)
    (Hin : In (Some b) bases)
    (Hb : keys_distinct b = true)
    (Hg : MetaEnum.__getitem__ b k = Ok lbl) :
  exists lbl', MetaEnum.__getitem__ r k = Ok lbl' /\ py_eq lbl' lbl = true.
Proof.
  unfold MetaEnum.__getitem__, dict_getitem in Hg.
  destruct (dict_get k b) as [e0 |] eqn:G; simpl in Hg; [| discriminate].
  injection Hg as <-.
  unfold MetaEnum.__init__ in Hok.
  destruct (MetaEnum.merge_bases false [] bases) as [acc |] eqn:E; simpl in Hok;
    [| discriminate].
  destruct (MetaEnum.declared cname attrs) as [[uc enums] |]; simpl in Hok;
    [| discriminate].
  destruct (@merge_bases_inherits _ _ _ E) as [_ Hinh].
  destruct (Hinh _ _ _ Hin Hb G) as (e1 & Hg1 & _ & Hv).
  destruct (register_default_ok _ _ _ Hok) as (items & -> & _).
  exists (value e1). split; [| exact Hv].
  unfold MetaEnum.__getitem__, dict_getitem.
  rewrite (@dict_get_app_l _ acc items _ _ Hg1). reflexivity.
Qed.

(** X4, at the class [D = 5] declared on the two bases [A = 1] and
    [E = 0]. *)
Lemma X4_inherited_labels_witness :
  let a := mkEnumItem (VInt 1) (VStr "A") (VStr "A") VNone (MBag []) in
  let e := mkEnumItem (VInt 0) (VStr "E") (VStr "E") VNone (MBag []) in
  exists r lbl,
    MetaEnum.__init__ false "T" [Some [(VInt 1, a)]; Some [(VInt 0, e)]]
      [("D", AVal (DVal (VInt 5)))] = Ok r /\
    MetaEnum.__getitem__ [(VInt 0, e)] (VInt 0) = Ok (VStr "E") /\
    MetaEnum.__getitem__ r (VInt 0) = Ok lbl /\ py_eq lbl (VStr "E") = true.
Proof.
  intros a e.
  assert (Hok : MetaEnum.__init__ false "T" [Some [(VInt 1, a)]; Some [(VInt 0, e)]]
                  [("D", AVal (DVal (VInt 5)))]
                = Ok [(VInt 1, a); (VInt 0, e);
                      (VInt 5, mkEnumItem (VInt 5) (VStr "D") (VStr "D") VNone (MBag []))])
    by reflexivity.
  assert (Hin : In (Some [(VInt 0, e)]) [Some [(VInt 1, a)]; Some [(VInt 0, e)]])
    by (right; left; reflexivity).
  destruct (@X4_inherited_labels "T" _ _ _ [(VInt 0, e)] (VInt 0) (VStr "E")
              Hok Hin eq_refl eq_refl) as (lbl & H1 & H2).
  eexists. exists lbl. split; [exact Hok |]. split; [reflexivity |].
  split; [exact H1 | exact H2].
Defined.

(** ** The exceptions of the builder *)

Lemma merge_bases_raise (permissive : bool) (bases : list (option registry)) :
  forall (acc : registry) (e : exn),
  MetaEnum.merge_bases permissive acc bases = Raise e ->
  permissive = false /\
  exists b old k v, In (Some b) bases /\ In (k, v) b /\ e = ConflictItem old k v /\
    (py_eq (key old) (key v) = false \/ py_eq (value old) (value v) = false).
Proof.
  induction bases as [| base bases IH]; intros acc e H; simpl in H; [discriminate |].
  assert (Hrest : forall acc', MetaEnum.merge_bases permissive acc' bases = Raise e ->
            permissive = false /\
            exists b old k v, In (Some b) (base :: bases) /\ In (k, v) b /\
              e = ConflictItem old k v /\
              (py_eq (key old) (key v) = false \/ py_eq (value old) (value v) = false)).
  { intros acc' H'. destruct (IH _ _ H') as (Hp & b & old & k & v & Hb & Hin & He & Hne).
    split; [exact Hp |]. exists b, old, k, v. split; [right; exact Hb | auto]. }
  destruct base as [b |]; simpl in H.
  - unfold dict_items in H. pose proof (check_base_spec permissive acc b) as Hc.
    destruct (MetaEnum.check_base permissive acc b) as [u | e']; simpl in H.
    + exact (Hrest _ H).
    + injection H as <-. destruct Hc as (Hp & k & v & old & Hin & _ & Hne & ->).
      split; [exact Hp |]. exists b, old, k, v. split; [left; reflexivity | auto].
  - exact (Hrest _ H).
Qed.

Lemma normalize_not_conflict (n : string) (val : attr) (e : exn) :
  MetaEnum.normalize n val = Raise e -> is_conflict e = false.
Proof.
  destruct val as [[e0 | | v | d] | t]; simpl; try discriminate.
  - intros H. injection H as <-. reflexivity.
  - destruct v as [| b | z | s | l]; try discriminate. unfold py_index.
    destruct (nth_error l 0); [| intros H; injection H as <-; reflexivity].
    destruct (nth_error l 1); [| intros H; injection H as <-; reflexivity].
    cbn [bind]. destruct (2 <? Z.of_nat (List.length l)); [| discriminate].
    destruct (nth_error l 2); [discriminate |].
    intros H. injection H as <-. reflexivity.
  - unfold intdict_getitem.
    destruct (intdict_get 0 d); [| intros H; injection H as <-; reflexivity].
    destruct (intdict_get 1 d); [| intros H; injection H as <-; reflexivity].
    cbn [bind]. destruct (2 <? Z.of_nat (List.length d)); [| discriminate].
    destruct (intdict_get 2 d); [discriminate |].
    intros H. injection H as <-. reflexivity.
  - intros H. injection H as <-. reflexivity.
Qed.

Lemma setattr_error_not_conflict (n : string) (v : pyval) (e : exn) :
  setattr_error n v = Some e -> is_conflict e = false.
Proof.
  unfold setattr_error.
  destruct (String.eqb n "__name__").
  - destruct v as [| b | z | s | l]; try (intros H; injection H as <-; reflexivity).
    destruct (contains_char (ascii_of_N 0) s); [| discriminate].
    intros H. injection H as <-. reflexivity.
  - destruct (existsb _ _); [intros H; injection H as <-; reflexivity |].
    destruct (existsb _ _); [intros H; injection H as <-; reflexivity | discriminate].
Qed.

Lemma register_raise (permissive uc : bool) (enums : list (string * attr)) :
  forall (acc : registry) (e : exn),
  MetaEnum.register permissive uc acc enums = Raise e ->
  is_conflict e = true ->
  permissive = false /\ exists old k n, e = ConflictName old k n.
Proof.
  induction enums as [| [n val] enums IH]; intros acc e H Hc; simpl in H; [discriminate |].
  destruct (MetaEnum.skipped uc n val) eqn:Hs; [exact (IH _ _ H Hc) |].
  destruct (MetaEnum.normalize n val) as [item0 | e0] eqn:Hn; simpl in H.
  - destruct (setattr_error n (key item0)) as [e1 |] eqn:He.
    + injection H as <-. rewrite (setattr_error_not_conflict _ _ He) in Hc. discriminate.
    + destruct (dict_get (key item0) acc) as [old |]; [| exact (IH _ _ H Hc)].
      destruct permissive; simpl in H; [exact (IH _ _ H Hc) |].
      injection H as <-. split; [reflexivity |]. eauto.
  - injection H as <-. rewrite (normalize_not_conflict _ _ Hn) in Hc. discriminate.
Qed.

Lemma declared_raise (cname : string) (attrs : list (string * attr)) (e : exn) :
  MetaEnum.declared cname attrs = Raise e -> is_conflict e = false.
Proof.
  unfold MetaEnum.declared.
  destruct (String.eqb cname "Enum"); [discriminate |].
  destruct (attrs_get "enums" attrs) as [[[e0 | | v | d] | t] |]; try discriminate;
    try (intros H; injection H as <-; reflexivity).
  destruct d as [| [k v] d]; [discriminate |].
  destruct (MetaEnum.normalize "" (AVal (DVal v))) as [item | e1] eqn:Hn;
    intros H; injection H as <-; [reflexivity |].
  exact (normalize_not_conflict _ _ Hn).
Qed.

(** X5: the two conflict errors are raised in the default mode only.
    The error of line 16 comes from an entry of a base whose key is
    already bound to an entry with another key or label; the permissive
    mode never raises a conflict, and the merge of the bases alone
    never fails in it. *)
Theorem X5_conflicts_in_default_mode_only (permissive : bool) (cname : string)
    (bases : list (option registry)) (attrs : list (string * attr)) :
  match MetaEnum.__init__ permissive cname bases attrs with
  | Ok _ => True
  | Raise (ConflictItem old k v) =>
      permissive = false /\
      (exists b, In (Some b) bases /\ In (k, v) b) /\
      (py_eq (key old) (key v) = false \/ py_eq (value old) (value v) = false)
  | Raise (ConflictName old k n) => permissive = false
  | Raise _ => True
  end /\
  raises (MetaEnum.merge_bases true [] bases) = false.
Proof.
  split.
  - unfold MetaEnum.__init__.
    destruct (MetaEnum.merge_bases permissive [] bases) as [acc | e] eqn:E; simpl.
    + destruct (MetaEnum.declared cname attrs) as [[uc enums] | e] eqn:D; simpl.
      * destruct (MetaEnum.register permissive uc acc enums) as [r | e] eqn:R; [exact I |].
        destruct e; try exact I.
        -- destruct (register_raise _ _ _ _ R eq_refl) as (_ & old & k' & n & Heq).
           discriminate.
        -- destruct (register_raise _ _ _ _ R eq_refl) as (Hp & _). exact Hp.
      * pose proof (declared_raise _ _ D) as Hc. destruct e; try exact I; discriminate.
    + destruct (merge_bases_raise _ _ _ E)
        as (Hp & b & old & k & v & Hb & Hin & -> & Hne).
      split; [exact Hp |]. split; [exists b; auto | exact Hne].
  - destruct (MetaEnum.merge_bases true [] bases) as [acc | e] eqn:E; [reflexivity |].
    destruct (merge_bases_raise _ _ _ E) as [Hp _]. discriminate.
Qed.

(** ** Listings *)

(** X6: [items()] pairs [keys()] with [values()], which have the same
    length, iterating over the class gives [keys()], and every pair
    [(k, n)] of [items()] has the name that [lookup(k)] returns, with
    and without [get]. *)
Theorem X6_items_keys_values (d : registry) (Hd : keys_distinct d = true) :
  Enum.items d = combine (Enum.keys d) (Enum.values d) /\
  List.length (Enum.keys d) = List.length (Enum.values d) /\
  MetaEnum.__iter__ d = Enum.keys d /\
  forall k n, In (k, n) (Enum.items d) ->
    Enum.lookup d k false = Ok n /\ Enum.lookup d k true = Ok n.
Proof.
  unfold Enum.items, Enum.keys, Enum.values, MetaEnum.__iter__, dict_items,
    dict_keys, dict_values.
  split; [| split; [| split]].
  - induction d as [| [k e] d IH]; simpl; [reflexivity |].
    rewrite IH; [reflexivity |]. apply (keys_distinct_tail _ _ _ Hd).
  - rewrite !length_map. reflexivity.
  - reflexivity.
  - intros k n Hin. apply in_map_iff in Hin. destruct Hin as ([k0 e] & Heq & Hin).
    simpl in Heq. injection Heq as <- <-.
    assert (Hb : bound d k0 e) by (exists k0; split; [exact Hin | apply py_eq_refl]).
    unfold Enum.lookup, dict_getitem. rewrite (bound_dict_get Hd Hb). split; reflexivity.
Qed.

(** X6, at the registry of [A = 1] and [B = 2]. *)
Lemma X6_items_keys_values_witness :
  let a := mkEnumItem (VInt 1) (VStr "A") (VStr "A") VNone (MBag []) in
  let b := mkEnumItem (VInt 2) (VStr "b") (VStr "B") (VInt 2) (MBag []) in
  keys_distinct [(VInt 1, a); (VInt 2, b)] = true /\
  Enum.items [(VInt 1, a); (VInt 2, b)] = [(VInt 1, VStr "A"); (VInt 2, VStr "B")] /\
  Enum.lookup [(VInt 1, a); (VInt 2, b)] (VInt 2) false = Ok (VStr "B").
Proof.
  intros a b. split; [reflexivity |]. split; [reflexivity |].
  destruct (@X6_items_keys_values [(VInt 1, a); (VInt 2, b)] eq_refl) as (_ & _ & _ & H).
  apply (H (VInt 2) (VStr "B")). right. left. reflexivity.
Defined.

Lemma entry_bound_by_key (d : registry) (e : EnumItem) :
  keys_distinct d = true -> keys_consistent d = true ->
  In e (dict_values d) -> dict_get (key e) d = Some e.
Proof.
  intros Hd Hc Hin. unfold dict_values in Hin. apply in_map_iff in Hin.
  destruct Hin as ([k e'] & Heq & Hin). simpl in Heq. subst e'.
  apply bound_dict_get; [exact Hd |]. exists k. split; [exact Hin |].
  exact (keys_consistent_In _ _ _ Hc Hin).
Qed.

(** X7: on a well-formed registry the listing of [verbose()] has one
    pair for every entry, the pair of its key and label, and every
    pair [(k, label)] of the listing is such that [Enum[k]] is
    [label]. *)
Theorem X7_verbose_listing_lookups (d : registry) (default : pyval)
    (Hd : keys_distinct d = true) (Hc : keys_consistent d = true) :
  exists l,
    Enum.verbose d (VBool false) default = Listing l /\
    List.length l = List.length d /\
    Permutation l (map (fun ke => (key (snd ke), value (snd ke))) d) /\
    (forall k lbl, In (k, lbl) l -> MetaEnum.__getitem__ d k = Ok lbl).
Proof.
  exists (map (fun x => (key x, value x)) (sorted Enum.sort_key (dict_values d))).
  pose proof (sorted_perm Enum.sort_key (dict_values d)) as Hp.
  split; [reflexivity |]. split; [| split].
  - rewrite length_map, (Permutation_length Hp). unfold dict_values.
    apply length_map.
  - rewrite <- (map_map snd (fun x => (key x, value x)) d).
    apply Permutation_map. exact Hp.
  - intros k lbl Hin. apply in_map_iff in Hin. destruct Hin as (x & Heq & Hin).
    injection Heq as <- <-. apply (Permutation_in _ Hp) in Hin.
    unfold MetaEnum.__getitem__, dict_getitem.
    rewrite (entry_bound_by_key _ _ Hd Hc Hin). reflexivity.
Qed.

(** X7, at the registry of [B = (2, 'b')] and [A = 1], in that order. *)
Lemma X7_verbose_listing_lookups_witness :
  let a := mkEnumItem (VInt 1) (VStr "A") (VStr "A") VNone (MBag []) in
  let b := mkEnumItem (VInt 2) (VStr "b") (VStr "B") (VInt 2) (MBag []) in
  let d := [(VInt 2, b); (VInt 1, a)] in
  keys_distinct d = true /\ keys_consistent d = true /\
  Enum.verbose d (VBool false) (VStr "") = Listing [(VInt 1, VStr "A"); (VInt 2, VStr "b")] /\
  MetaEnum.__getitem__ d (VInt 2) = Ok (VStr "b").
Proof.
  intros a b d. split; [reflexivity |]. split; [reflexivity |].
  destruct (@X7_verbose_listing_lookups d (VStr "") eq_refl eq_refl)
    as (l & Hv & _ & _ & H).
  split; [reflexivity |].
  apply H. cbv in Hv. injection Hv as <-. right. left. reflexivity.
Defined.

Lemma sort_key_is_key (x : EnumItem) :
  sort x = VNone \/ sort x = key x -> Enum.sort_key x = key x.
Proof.
  unfold Enum.sort_key, py_or. intros [H | H]; rewrite H; [reflexivity |].
  destruct (py_truthy (key x)); reflexivity.
Qed.

Lemma Sorted_map_pairs (l : list EnumItem) :
  Sorted (key_le key) l ->
  Sorted (fun p q : pyval * pyval => py_le (fst p) (fst q) = true)
    (map (fun x => (key x, value x)) l).
Proof.
  intros Hs. induction Hs as [| x l Hs IH Hh]; simpl; constructor; [exact IH |].
  destruct Hh as [| y l Hxy]; simpl; constructor. exact Hxy.
Qed.

(** X8: when no entry has a sort value of its own (the sort is unset,
    as for a bare value, or is the key, as for a tuple), the listing
    of [verbose()] is in ascending order of the keys, whatever the
    order of the registry. *)
Theorem X8_verbose_ascending_keys (d : registry) (default : pyval)
    (Hsort : forall k e, In (k, e) d -> sort e = VNone \/ sort e = key e) :
  exists l,
    Enum.verbose d (VBool false) default = Listing l /\
    Sorted (fun p q : pyval * pyval => py_le (fst p) (fst q) = true) l.
Proof.
  exists (map (fun x => (key x, value x)) (sorted Enum.sort_key (dict_values d))).
  split; [reflexivity |]. apply Sorted_map_pairs.
  apply (@Sorted_key_le_ext _ Enum.sort_key key); [| apply sorted_sorted].
  intros x Hx. apply sort_key_is_key.
  apply (Permutation_in _ (sorted_perm Enum.sort_key (dict_values d))) in Hx.
  unfold dict_values in Hx. apply in_map_iff in Hx.
  destruct Hx as ([k e] & <- & Hin). exact (Hsort k e Hin).
Qed.

(** X8, at the registry of [C = (3, 'c')], [A = 1], [B = (2, 'b')]. *)
Lemma X8_verbose_ascending_keys_witness :
  let a := mkEnumItem (VInt 1) (VStr "A") (VStr "A") VNone (MBag []) in
  let b := mkEnumItem (VInt 2) (VStr "b") (VStr "B") (VInt 2) (MBag []) in
  let c := mkEnumItem (VInt 3) (VStr "c") (VStr "C") (VInt 3) (MBag []) in
  let d := [(VInt 3, c); (VInt 1, a); (VInt 2, b)] in
  (forall k e, In (k, e) d -> sort e = VNone \/ sort e = key e) /\
  exists l, Enum.verbose d (VBool false) (VStr "") = Listing l /\
    Sorted (fun p q : pyval * pyval => py_le (fst p) (fst q) = true) l.
Proof.
  intros a b c d.
  assert (Hsort : forall k e, In (k, e) d -> sort e = VNone \/ sort e = key e).
  { intros k e [H | [H | [H | []]]]; injection H as <- <-; simpl; auto. }
  split; [exact Hsort |].
  exact (@X8_verbose_ascending_keys d (VStr "") Hsort).
Defined.

Lemma map_result_map (A B C : Type) (f : B -> result C) (g : A -> B) (h : A -> C)
    (l : list A) :
  (forall x, In x l -> f (g x) = Ok (h x)) ->
  map_result f (map g l) = Ok (map h l).
Proof.
  induction l as [| x l IH]; intros H; simpl; [reflexivity |].
  rewrite (H x (or_introl eq_refl)). simpl.
  rewrite IH; [reflexivity |]. intros y Hy. apply H. right. exact Hy.
Qed.

(** X9: [rest_as_json] calls [cls.verbose()] and, for every pair of
    the listing, [cls.metadata(key)].  On a well-formed registry, where
    both are the class methods of [Enum], it raises nothing and returns
    the pairs of [verbose()], in the same order, each with the metadata
    of its entry as a third element, never with the [None] of a key
    that is not found.  Where a value of the class is named [verbose]
    it raises [TypeError], and where one is named [metadata] it raises
    [TypeError] unless the registry is empty. *)
Theorem X9_rest_as_json (cls : pyclass)
    (Hd : keys_distinct (cls_item_dict cls) = true)
    (Hc : keys_consistent (cls_item_dict cls) = true) :
  (class_getattr cls "verbose" = EnumMethod ->
   class_getattr cls "metadata" = EnumMethod ->
   exists l,
     Permutation l (dict_values (cls_item_dict cls)) /\
     Enum.verbose (cls_item_dict cls) (VBool false) (VStr "")
     = Listing (map (fun x => (key x, value x)) l) /\
     Enum.rest_as_json cls
     = Some (Ok (map (fun x => (key x, value x, ItemMeta (metadata x))) l))) /\
  (class_getattr cls "verbose" = NotCallable ->
   Enum.rest_as_json cls = Some (Raise TypeError)) /\
  (class_getattr cls "verbose" = EnumMethod ->
   class_getattr cls "metadata" = NotCallable ->
   Enum.rest_as_json cls
   = Some (match cls_item_dict cls with [] => Ok [] | _ :: _ => Raise TypeError end)).
Proof.
  set (d := cls_item_dict cls) in *.
  pose proof (sorted_perm Enum.sort_key (dict_values d)) as Hp.
  unfold Enum.rest_as_json. fold d. cbn [Enum.verbose is_False].
  split; [| split].
  - intros Hv Hm. rewrite Hv.
    exists (sorted Enum.sort_key (dict_values d)).
    split; [exact Hp |]. split; [reflexivity |].
    destruct (sorted Enum.sort_key (dict_values d)) as [| x l] eqn:El; [reflexivity |].
    cbn [map]. unfold call_method. rewrite Hm. f_equal.
    change ((key x, value x) :: map (fun x0 => (key x0, value x0)) l)
      with (map (fun x0 : EnumItem => (key x0, value x0)) (x :: l)).
    change ((key x, value x, ItemMeta (metadata x))
            :: map (fun x0 => (key x0, value x0, ItemMeta (metadata x0))) l)
      with (map (fun x0 : EnumItem => (key x0, value x0, ItemMeta (metadata x0))) (x :: l)).
    apply map_result_map. intros y Hy. cbn [fst snd Enum.metadata].
    apply (Permutation_in _ Hp) in Hy.
    rewrite (entry_bound_by_key _ _ Hd Hc Hy). reflexivity.
  - intros Hv. rewrite Hv. reflexivity.
  - intros Hv Hm. rewrite Hv.
    pose proof (Permutation_length Hp) as Hlen.
    unfold dict_values in Hlen. rewrite length_map in Hlen.
    destruct (sorted Enum.sort_key (map snd d)) as [| x l] eqn:El.
    + unfold dict_values. rewrite El.
      destruct d as [| ke d']; [reflexivity | discriminate Hlen].
    + unfold dict_values. rewrite El.
      destruct d as [| ke d']; [discriminate Hlen |].
      cbn [map]. unfold call_method. rewrite Hm. reflexivity.
Qed.

(** X9, at the class of [C = (3, 'c', 'cmeta')] and [A = 1]. *)
Lemma X9_rest_as_json_witness :
  let a := mkEnumItem (VInt 1) (VStr "A") (VStr "A") VNone (MBag []) in
  let c := mkEnumItem (VInt 3) (VStr "c") (VStr "C") (VInt 3) (MVal (VStr "cmeta")) in
  let cls := mkClass [[("C", AVal (DVal (VInt 3))); ("A", AVal (DVal (VInt 1)))]]
               [(VInt 3, c); (VInt 1, a)] in
  MetaEnum.new_class false "T" [Some []] []
    [("C", AVal (DVal (VTuple [VInt 3; VStr "c"; VStr "cmeta"])));
     ("A", AVal (DVal (VInt 1)))] = Ok cls /\
  keys_distinct (cls_item_dict cls) = true /\
  keys_consistent (cls_item_dict cls) = true /\
  class_getattr cls "verbose" = EnumMethod /\
  class_getattr cls "metadata" = EnumMethod /\
  Enum.rest_as_json cls
  = Some (Ok [(VInt 1, VStr "A", ItemMeta (MBag []));
              (VInt 3, VStr "c", ItemMeta (MVal (VStr "cmeta")))]) /\
  exists l,
    Permutation l (dict_values (cls_item_dict cls)) /\
    Enum.verbose (cls_item_dict cls) (VBool false) (VStr "")
    = Listing (map (fun x => (key x, value x)) l) /\
    Enum.rest_as_json cls
    = Some (Ok (map (fun x => (key x, value x, ItemMeta (metadata x))) l)).
Proof.
  intros a c cls. split; [reflexivity |].
  split; [reflexivity |]. split; [reflexivity |].
  split; [reflexivity |]. split; [reflexivity |]. split; [reflexivity |].
  exact (proj1 (@X9_rest_as_json cls eq_refl eq_refl) eq_refl eq_refl).
Defined.

(** ** The dict of all metadata *)

Lemma py_eq_congr (a b c : pyval) : py_eq a b = true -> py_eq a c = py_eq b c.
Proof.
  intros Hab. destruct (py_eq a c) eqn:E.
  - symmetry. rewrite py_eq_sym in Hab. exact (py_eq_trans _ _ _ Hab E).
  - symmetry. exact (py_eq_false_l _ _ _ Hab E).
Qed.

Lemma metadata_pairs_get (d : registry) (k : pyval) :
  keys_consistent d = true ->
  dict_get k (map (fun ke => (key (snd ke), metadata (snd ke))) d)
  = option_map metadata (dict_get k d).
Proof.
  unfold keys_consistent.
  induction d as [| [k0 e0] d IH]; intros Hc; simpl in *; [reflexivity |].
  apply andb_true_iff in Hc. destruct Hc as [H0 Hc].
  rewrite <- (py_eq_congr _ _ k H0).
  destruct (py_eq k0 k); [reflexivity | exact (IH Hc)].
Qed.

Lemma metadata_pairs_distinct (d : registry) :
  keys_distinct d = true -> keys_consistent d = true ->
  keys_distinct (map (fun ke => (key (snd ke), metadata (snd ke))) d) = true.
Proof.
  induction d as [| [k0 e0] d IH]; intros Hd Hc; [reflexivity |].
  destruct (keys_distinct_tail _ _ _ Hd) as [Habs Hd'].
  assert (Hc0 : py_eq k0 (key e0) = true).
  { apply (keys_consistent_In _ _ _ Hc). left. reflexivity. }
  assert (Hc' : keys_consistent d = true).
  { unfold keys_consistent in *. simpl in Hc. apply andb_true_iff in Hc. apply Hc. }
  cbn [map keys_distinct fst snd]. rewrite (IH Hd' Hc'), andb_true_r.
  unfold dict_has. rewrite (metadata_pairs_get _ _ Hc').
  rewrite <- (@dict_get_py_eq _ d _ _ Hc0).
  apply dict_get_absent in Habs. rewrite Habs. reflexivity.
Qed.

Lemma fold_left_dict_set_map (V : Type) (f : EnumItem -> pyval * V) (l : list EnumItem) :
  forall acc : dict V,
  fold_left (fun acc x => dict_set (fst (f x)) (snd (f x)) acc) l acc
  = dict_update acc (map f l).
Proof.
  unfold dict_update. induction l as [| x l IH]; intros acc; simpl; [reflexivity |].
  apply IH.
Qed.

(** X10: on a well-formed registry [metadata()] is a dict with one
    item for every entry, and [metadata(k)] and [metadata(k, default)]
    are what this dict has for [k], or [None] or the default when it
    does not have [k]; more than two arguments raise [TypeError]. *)
Theorem X10_metadata_dict (d : registry)
    (Hd : keys_distinct d = true) (Hc : keys_consistent d = true) :
  exists m,
    Enum.metadata d [] = Ok (AllMeta m) /\
    List.length m = List.length d /\
    keys_distinct m = true /\
    (forall k, dict_get k m = option_map metadata (dict_get k d)) /\
    (forall k,
       Enum.metadata d [k]
       = Ok (match dict_get k m with Some x => ItemMeta x | None => Default VNone end)) /\
    (forall k default,
       Enum.metadata d [k; default]
       = Ok (match dict_get k m with Some x => ItemMeta x | None => Default default end)) /\
    (forall k default a rest, Enum.metadata d (k :: default :: a :: rest) = Raise TypeError).
Proof.
  exists (map (fun ke => (key (snd ke), metadata (snd ke))) d).
  pose proof (metadata_pairs_distinct _ Hd Hc) as Hm.
  split; [| split; [| split; [| split; [| split; [| split]]]]].
  - unfold Enum.metadata.
    rewrite (fold_left_dict_set_map (fun x => (key x, metadata x))).
    unfold dict_values. rewrite map_map. cbn [fst snd].
    rewrite dict_update_nil by exact Hm. reflexivity.
  - apply length_map.
  - exact Hm.
  - intros k. apply metadata_pairs_get. exact Hc.
  - intros k. unfold Enum.metadata. rewrite (metadata_pairs_get _ _ Hc).
    destruct (dict_get k d); reflexivity.
  - intros k default. unfold Enum.metadata. rewrite (metadata_pairs_get _ _ Hc).
    destruct (dict_get k d); reflexivity.
  - reflexivity.
Qed.

(** X10, at the registry of [C = (3, 'c', 'cmeta')] and [A = 1]. *)
Lemma X10_metadata_dict_witness :
  let a := mkEnumItem (VInt 1) (VStr "A") (VStr "A") VNone (MBag []) in
  let c := mkEnumItem (VInt 3) (VStr "c") (VStr "C") (VInt 3) (MVal (VStr "cmeta")) in
  let d := [(VInt 3, c); (VInt 1, a)] in
  keys_distinct d = true /\ keys_consistent d = true /\
  Enum.metadata d [] = Ok (AllMeta [(VInt 3, MVal (VStr "cmeta")); (VInt 1, MBag [])]) /\
  exists m, Enum.metadata d [] = Ok (AllMeta m) /\
    Enum.metadata d [VInt 100; VStr "default"]
    = Ok (match dict_get (VInt 100) m with
          | Some x => ItemMeta x
          | None => Default (VStr "default")
          end).
Proof.
  intros a c d. split; [reflexivity |]. split; [reflexivity |].
  split; [reflexivity |].
  destruct (@X10_metadata_dict d eq_refl eq_refl) as (m & H1 & _ & _ & _ & _ & H2 & _).
  exists m. split; [exact H1 | apply H2].
Defined.

(** ** Random keys *)

Lemma verbose_pairs_length (d : registry) :
  List.length (map (fun x => (key x, value x)) (sorted Enum.sort_key (dict_values d)))
  = List.length d.
Proof.
  rewrite length_map, (Permutation_length (sorted_perm Enum.sort_key (dict_values d))).
  apply length_map.
Qed.

Lemma randint_index (n : nat) (seed : Z) :
  (0 < n)%nat ->
  exists i, randint 0 (Z.of_nat n - 1) seed = Ok i /\ 0 <= i < Z.of_nat n.
Proof.
  intros Hn. unfold randint.
  destruct (Z.of_nat n - 1 <? 0) eqn:E; [apply Z.ltb_lt in E; lia |].
  exists (0 + seed mod (Z.of_nat n - 1 - 0 + 1)). split; [reflexivity |].
  replace (Z.of_nat n - 1 - 0 + 1) with (Z.of_nat n) by lia.
  pose proof (Z.mod_pos_bound seed (Z.of_nat n)). lia.
Qed.

(** X11: [random()] calls [cls.verbose()].  Where that is the class
    method of [Enum], it raises [ValueError] on the empty registry,
    from [randint(0, -1)], and on every other registry it returns the
    key of an entry, whatever the generator gives; every entry's key is
    returned for some state of the generator.  Where a value of the
    class is named [verbose], it raises [TypeError]. *)
Theorem X11_random_key (cls : pyclass) (seed : Z) :
  (class_getattr cls "verbose" = EnumMethod ->
     match Enum.random cls seed with
     | Some (Ok k) => exists e, In e (dict_values (cls_item_dict cls)) /\ k = key e
     | Some (Raise ex) => cls_item_dict cls = [] /\ ex = ValueError
     | None => False
     end /\
     (forall e, In e (dict_values (cls_item_dict cls)) ->
        exists seed', Enum.random cls seed' = Some (Ok (key e)))) /\
  (class_getattr cls "verbose" = NotCallable ->
     Enum.random cls seed = Some (Raise TypeError)).
Proof.
  unfold Enum.random, call_method.
  split; intros Hm; rewrite Hm; [| reflexivity].
  destruct cls as [mro d]. cbn [cls_item_dict] in *.
  pose proof (sorted_perm Enum.sort_key (dict_values d)) as Hp.
  pose proof (verbose_pairs_length d) as Hlen.
  cbn [Enum.verbose is_False].
  set (l := map (fun x => (key x, value x)) (sorted Enum.sort_key (dict_values d))) in *.
  split.
  - destruct d as [| ke d]; [split; reflexivity |].
    destruct (@randint_index (List.length l) seed) as (i & Hi & Hb);
      [rewrite Hlen; simpl; lia |].
    rewrite Hi. cbn [bind].
    destruct (nth_error l (Z.to_nat i)) as [kv |] eqn:N.
    + apply nth_error_In in N. unfold l in N. apply in_map_iff in N.
      destruct N as (x & <- & Hx). exists x. split; [| reflexivity].
      exact (Permutation_in _ Hp Hx).
    + apply nth_error_None in N. lia.
  - intros e He.
    assert (Hin : In (key e, value e) l).
    { unfold l. apply (in_map (fun x => (key x, value x))).
      exact (Permutation_in _ (Permutation_sym Hp) He). }
    destruct (In_nth_error _ _ Hin) as [n Hn].
    assert (Hlt : (n < List.length l)%nat).
    { apply nth_error_Some. rewrite Hn. discriminate. }
    exists (Z.of_nat n). unfold randint.
    destruct (Z.of_nat (List.length l) - 1 <? 0) eqn:E; [apply Z.ltb_lt in E; lia |].
    cbn [bind].
    replace (Z.of_nat (List.length l) - 1 - 0 + 1) with (Z.of_nat (List.length l)) by lia.
    rewrite Z.mod_small by lia. rewrite Z.add_0_l, Nat2Z.id, Hn. reflexivity.
Qed.

(** X11, at the class of [A = 1] and [B = 2], and at the class without
    entries. *)
Lemma X11_random_key_witness :
  let a := mkEnumItem (VInt 1) (VStr "A") (VStr "A") VNone (MBag []) in
  let b := mkEnumItem (VInt 2) (VStr "B") (VStr "B") VNone (MBag []) in
  let cls := mkClass [[("A", AVal (DVal (VInt 1))); ("B", AVal (DVal (VInt 2)))]]
               [(VInt 1, a); (VInt 2, b)] in
  MetaEnum.new_class false "T" [Some []] []
    [("A", AVal (DVal (VInt 1))); ("B", AVal (DVal (VInt 2)))] = Ok cls /\
  class_getattr cls "verbose" = EnumMethod /\
  In b (dict_values (cls_item_dict cls)) /\
  Enum.random cls 7 = Some (Ok (VInt 2)) /\
  Enum.random (mkClass [[]] []) 7 = Some (Raise ValueError) /\
  exists seed', Enum.random cls seed' = Some (Ok (key b)).
Proof.
  intros a b cls.
  assert (Hb : In b (dict_values (cls_item_dict cls))) by (right; left; reflexivity).
  split; [reflexivity |]. split; [reflexivity |]. split; [exact Hb |].
  split; [reflexivity |]. split; [reflexivity |].
  exact (proj2 (proj1 (@X11_random_key cls 0) eq_refl) b Hb).
Defined.

(** ** The next key *)

Lemma py_eq_num (a b : pyval) (x y : Z) :
  num_of a = Some x -> num_of b = Some y -> py_eq a b = (x =? y).
Proof.
  intros Ha Hb.
  destruct a as [| [] | | |], b as [| [] | | |]; simpl in Ha, Hb; try discriminate;
    injection Ha as <-; injection Hb as <-; reflexivity.
Qed.

(** X12: with numeric keys, and [cls.keys] the class method of [Enum],
    [next_available_key()] returns a key that the registry does not
    have: indexing the class with it raises [KeyError]. *)
Theorem X12_next_available_key_fresh (cls : pyclass)
    (Hkeys : class_getattr cls "keys" = EnumMethod)
    (Hnum : forall k, In k (Enum.keys (cls_item_dict cls)) -> num_of k <> None) :
  exists k', Enum.next_available_key cls = Some (Ok k') /\
    absent (cls_item_dict cls) k' /\
    MetaEnum.__getitem__ (cls_item_dict cls) k' = Raise (KeyError k').
Proof.
  unfold Enum.next_available_key, call_method. rewrite Hkeys.
  destruct cls as [mro d]. cbn [cls_item_dict] in *.
  assert (Hfresh : exists k',
            match sorted_reverse (fun x => x) (Enum.keys d) with
            | k :: _ => py_add1 k
            | [] => Ok (VInt 0)
            end = Ok k' /\ absent d k').
  { destruct d as [| ke d].
    - exists (VInt 0). split; [reflexivity |]. intros k v [].
    - destruct (sorted_reverse_max Hnum) as (h & rest & m & Hs & _ & Hm & Hmax);
        [discriminate |].
      exists (VInt (m + 1)). split.
      + rewrite Hs. unfold py_add1. rewrite Hm. reflexivity.
      + intros k v Hin.
        assert (Hk : In k (Enum.keys (ke :: d))).
        { unfold Enum.keys, dict_keys. apply (in_map fst) in Hin. exact Hin. }
        destruct (num_of k) as [z |] eqn:Ez; [| exfalso; exact (Hnum k Hk Ez)].
        rewrite (py_eq_num k (VInt (m + 1)) Ez eq_refl).
        apply Z.eqb_neq. pose proof (Hmax k z Hk Ez). lia. }
  destruct Hfresh as (k' & Hn & Ha). exists k'. split; [rewrite Hn; reflexivity |].
  split; [exact Ha |].
  apply dict_get_absent in Ha. unfold MetaEnum.__getitem__, dict_getitem.
  rewrite Ha. reflexivity.
Qed.

(** X12, at the class of the keys [2], [3], [1]. *)
Lemma X12_next_available_key_fresh_witness :
  let e := fun z => mkEnumItem (VInt z) (VStr "x") (VStr "X") VNone (MBag []) in
  let cls := mkClass [[]] [(VInt 2, e 2); (VInt 3, e 3); (VInt 1, e 1)] in
  class_getattr cls "keys" = EnumMethod /\
  (forall k, In k (Enum.keys (cls_item_dict cls)) -> num_of k <> None) /\
  Enum.next_available_key cls = Some (Ok (VInt 4)) /\
  exists k', Enum.next_available_key cls = Some (Ok k') /\
    absent (cls_item_dict cls) k' /\
    MetaEnum.__getitem__ (cls_item_dict cls) k' = Raise (KeyError k').
Proof.
  intros e cls.
  assert (Hnum : forall k, In k (Enum.keys (cls_item_dict cls)) -> num_of k <> None).
  { intros k [<- | [<- | [<- | []]]]; discriminate. }
  split; [reflexivity |]. split; [exact Hnum |]. split; [reflexivity |].
  exact (@X12_next_available_key_fresh cls eq_refl Hnum).
Defined.

Lemma py_le_rank (a b : pyval) : py_le a b = true -> type_rank a <= type_rank b.
Proof.
  destruct a as [| [] | | |], b as [| [] | | |]; cbn [type_rank]; intros H;
    try lia; discriminate H.
Qed.

Lemma sorted_reverse_head_rank (l : list pyval) :
  l <> [] ->
  exists h rest, sorted_reverse (fun x => x) l = h :: rest /\
    forall k, In k l -> type_rank k <= type_rank h.
Proof.
  induction l as [| x l IH]; intros Hne; [congruence |].
  destruct l as [| y l].
  - exists x, []. split; [reflexivity |]. intros k [<- | []]. lia.
  - destruct IH as (h & rest & Hs & Hmax); [discriminate |].
    change (sorted_reverse (fun x => x) (x :: y :: l))
      with (insert_desc (fun x => x) x (sorted_reverse (fun x => x) (y :: l))).
    rewrite Hs. simpl insert_desc.
    destruct (py_le h x) eqn:E.
    + apply py_le_rank in E. exists x, (h :: rest). split; [reflexivity |].
      intros k [<- | Hk]; [lia |]. pose proof (Hmax k Hk). lia.
    + apply py_le_total in E. apply py_le_rank in E.
      exists h, (insert_desc (fun x => x) x rest). split; [reflexivity |].
      intros k [<- | Hk]; [exact E | exact (Hmax k Hk)].
Qed.

(** X13: when some key is a string or a tuple, which Python 2 orders
    above every number, [next_available_key()] raises [TypeError],
    from adding [1] to the greatest key, or, where a value of the class
    is named [keys], from calling that value.  (Only a routine of a
    class body named [keys] can make it do anything else.) *)
Theorem X13_next_available_key_type_error (cls : pyclass) (k : pyval)
    (Hin : In k (Enum.keys (cls_item_dict cls))) (Hk : 2 <= type_rank k)
    (Hr : class_getattr cls "keys" <> BodyRoutine) :
  Enum.next_available_key cls = Some (Raise TypeError).
Proof.
  unfold Enum.next_available_key, call_method.
  destruct (class_getattr cls "keys"); [| reflexivity | congruence].
  assert (Hne : Enum.keys (cls_item_dict cls) <> [])
    by (intros E; rewrite E in Hin; destruct Hin).
  destruct (sorted_reverse_head_rank Hne) as (h & rest & Hs & Hmax).
  rewrite Hs. unfold py_add1.
  pose proof (Hmax k Hin) as Hrk.
  destruct h as [| [] | | |]; cbn [type_rank] in Hrk; try lia; reflexivity.
Qed.

(** X13, at the class of the keys ['a'] and [1]. *)
Lemma X13_next_available_key_type_error_witness :
  let e := fun v => mkEnumItem v (VStr "x") (VStr "X") VNone (MBag []) in
  let cls := mkClass [[]] [(VStr "a", e (VStr "a")); (VInt 1, e (VInt 1))] in
  In (VStr "a") (Enum.keys (cls_item_dict cls)) /\ 2 <= type_rank (VStr "a") /\
  class_getattr cls "keys" <> BodyRoutine /\
  Enum.next_available_key cls = Some (Raise TypeError).
Proof.
  intros e cls.
  assert (Hin : In (VStr "a") (Enum.keys (cls_item_dict cls))) by (left; reflexivity).
  assert (Hk : 2 <= type_rank (VStr "a")) by (simpl; lia).
  assert (Hr : class_getattr cls "keys" <> BodyRoutine) by discriminate.
  split; [exact Hin |]. split; [exact Hk |]. split; [exact Hr |].
  exact (@X13_next_available_key_type_error cls (VStr "a") Hin Hk Hr).
Defined.

(** ** Declarations that cannot be registered *)

Lemma register_raises_of_bad (permissive uc : bool) (n : string) (val : attr) (e0 : exn)
    (enums : list (string * attr)) :
  MetaEnum.normalize n val = Raise e0 ->
  MetaEnum.skipped uc n val = false ->
  In (n, val) enums ->
  forall acc : registry, raises (MetaEnum.register permissive uc acc enums) = true.
Proof.
  intros Hn Hs.
  induction enums as [| [n1 val1] enums IH]; intros Hin acc; [destruct Hin |].
  simpl. destruct Hin as [Heq | Hin].
  - injection Heq as -> ->. rewrite Hs, Hn. reflexivity.
  - destruct (MetaEnum.skipped uc n1 val1); [exact (IH Hin acc) |].
    destruct (MetaEnum.normalize n1 val1) as [item1 |]; simpl; [| reflexivity].
    destruct (setattr_error n1 (key item1)); [reflexivity |].
    destruct (dict_get (key item1) acc) as [old |]; [| apply (IH Hin)].
    destruct (negb permissive && item_ne_str old n1); [reflexivity | apply (IH Hin)].
Qed.

(** X14: a class whose declarations include, not skipped, a tuple with
    fewer than two elements, a dict with names as keys, or a dict with
    integers as keys that lacks the key [0] or the key [1], cannot be
    declared, in either mode and whatever else it declares and
    inherits: [MetaEnum.__init__] raises.  (A dict that has the keys
    [0] and [1] is registered like a tuple.) *)
Theorem X14_malformed_declaration (permissive : bool) (cname : string)
    (bases : list (option registry)) (attrs : list (string * attr))
    (uc : bool) (enums : list (string * attr)) (n : string) (val : attr)
    (Hd : MetaEnum.declared cname attrs = Ok (uc, enums))
    (Hin : In (n, val) enums)
    (Hs : MetaEnum.skipped uc n val = false)
    (Hval : (exists l, val = AVal (DVal (VTuple l)) /\ (List.length l < 2)%nat) \/
            (exists t, val = ADict t) \/
            (exists d, val = AVal (DDict d) /\
               (intdict_get 0 d = None \/ intdict_get 1 d = None))) :
  raises (MetaEnum.__init__ permissive cname bases attrs) = true.
Proof.
  assert (Hn : exists e0, MetaEnum.normalize n val = Raise e0).
  { destruct Hval as [(l & -> & Hl) | [(t & ->) | (d & -> & Hd01)]].
    - destruct l as [| k [| lbl rest]]; simpl in Hl; [eexists; reflexivity .. | lia].
    - eexists. reflexivity.
    - simpl. unfold intdict_getitem. destruct Hd01 as [H0 | H1].
      + rewrite H0. eexists. reflexivity.
      + rewrite H1. destruct (intdict_get 0 d); eexists; reflexivity. }
  destruct Hn as [e0 Hn].
  unfold MetaEnum.__init__.
  destruct (MetaEnum.merge_bases permissive [] bases) as [acc |]; simpl; [| reflexivity].
  rewrite Hd. simpl.
  eapply register_raises_of_bad; [exact Hn | exact Hs | exact Hin].
Qed.

(** X14, at the bodies [A = 1], [B = (2,)] and [A = 1], [B = {0: 5}];
    the body [B = {0: 5, 1: 'five'}] is declared. *)
Lemma X14_malformed_declaration_witness :
  let attrs := [("A", AVal (DVal (VInt 1))); ("B", AVal (DVal (VTuple [VInt 2])))] in
  let attrs' := [("A", AVal (DVal (VInt 1))); ("B", AVal (DDict [(0, VInt 5)]))] in
  MetaEnum.declared "T" attrs = Ok (true, attrs) /\
  In ("B", AVal (DVal (VTuple [VInt 2]))) attrs /\
  MetaEnum.__init__ false "T" [Some []] attrs = Raise IndexError /\
  raises (MetaEnum.__init__ false "T" [Some []] attrs) = true /\
  MetaEnum.__init__ false "T" [Some []] attrs' = Raise (KeyError (VInt 1)) /\
  raises (MetaEnum.__init__ false "T" [Some []] attrs') = true /\
  MetaEnum.__init__ false "T" [Some []]
    [("B", AVal (DDict [(0, VInt 5); (1, VStr "five")]))]
  = Ok [(VInt 5, mkEnumItem (VInt 5) (VStr "five") (VStr "B") (VInt 5) (MBag []))].
Proof.
  intros attrs attrs'.
  assert (Hin : In ("B", AVal (DVal (VTuple [VInt 2]))) attrs) by (right; left; reflexivity).
  assert (Hin' : In ("B", AVal (DDict [(0, VInt 5)])) attrs') by (right; left; reflexivity).
  split; [reflexivity |]. split; [exact Hin |]. split; [reflexivity |].
  split.
  { apply (@X14_malformed_declaration false "T" [Some []] attrs true attrs "B"
             (AVal (DVal (VTuple [VInt 2]))) eq_refl Hin eq_refl).
    left. exists [VInt 2]. split; [reflexivity | simpl; lia]. }
  split; [reflexivity |]. split; [| reflexivity].
  apply (@X14_malformed_declaration false "T" [Some []] attrs' true attrs' "B"
           (AVal (DDict [(0, VInt 5)])) eq_refl Hin' eq_refl).
  right. right. exists [(0, VInt 5)]. split; [reflexivity | right; reflexivity].
Defined.

(** ** The class attributes that line 44 sets *)

Lemma attrs_get_set (n n' : string) (a : attr) (ns : namespace) :
  attrs_get n' (attrs_set n a ns) = if String.eqb n n' then Some a else attrs_get n' ns.
Proof.
  induction ns as [| [n0 a0] ns IH]; simpl; [reflexivity |].
  destruct (String.eqb n0 n) eqn:E; simpl.
  - apply String.eqb_eq in E. subst n0.
    destruct (String.eqb n n'); reflexivity.
  - rewrite IH. destruct (String.eqb n0 n') eqn:F; [| reflexivity].
    apply String.eqb_eq in F. subst n0. rewrite String.eqb_sym, E. reflexivity.
Qed.

Lemma register_ok_normalize (permissive uc : bool) (enums : list (string * attr)) :
  forall acc r : registry,
  MetaEnum.register permissive uc acc enums = Ok r ->
  forall n val, In (n, val) enums -> MetaEnum.skipped uc n val = false ->
  exists item, MetaEnum.normalize n val = Ok item.
Proof.
  induction enums as [| [n0 val0] enums IH]; intros acc r Hr n val Hin Hs; [destruct Hin |].
  simpl in Hr. destruct Hin as [Heq | Hin].
  - injection Heq as -> ->. rewrite Hs in Hr.
    destruct (MetaEnum.normalize n val) as [item |]; [eauto | discriminate].
  - destruct (MetaEnum.skipped uc n0 val0); [exact (IH _ _ Hr _ _ Hin Hs) |].
    destruct (MetaEnum.normalize n0 val0) as [item0 |]; simpl in Hr; [| discriminate].
    destruct (setattr_error n0 (key item0)); [discriminate |].
    destruct (dict_get (key item0) acc) as [old |].
    + destruct (negb permissive && item_ne_str old n0); [discriminate |].
      exact (IH _ _ Hr _ _ Hin Hs).
    + exact (IH _ _ Hr _ _ Hin Hs).
Qed.

Lemma class_dict_unset (uc : bool) (n : string) (enums : list (string * attr)) :
  forall ns : namespace,
  (forall val, In (n, val) enums -> MetaEnum.skipped uc n val = true) ->
  attrs_get n (MetaEnum.class_dict uc ns enums) = attrs_get n ns.
Proof.
  induction enums as [| [n0 val0] enums IH]; intros ns Hsk; [reflexivity |].
  assert (Hsk' : forall val, In (n, val) enums -> MetaEnum.skipped uc n val = true).
  { intros val Hin. apply Hsk. right. exact Hin. }
  simpl. destruct (MetaEnum.skipped uc n0 val0) eqn:Hs; [exact (IH ns Hsk') |].
  destruct (MetaEnum.normalize n0 val0) as [item |]; [| reflexivity].
  destruct (String.eqb n0 "__name__"); [exact (IH ns Hsk') |].
  rewrite (IH _ Hsk'), attrs_get_set.
  destruct (String.eqb n0 n) eqn:E; [| reflexivity].
  apply String.eqb_eq in E. subst n0.
  rewrite (Hsk val0 (or_introl eq_refl)) in Hs. discriminate.
Qed.

Lemma class_dict_set (uc : bool) (n : string) (enums : list (string * attr)) :
  n <> "__name__" ->
  (forall n' val, In (n', val) enums -> MetaEnum.skipped uc n' val = false ->
     exists item, MetaEnum.normalize n' val = Ok item) ->
  forall ns : namespace,
  (exists v, attrs_get n ns = Some (AVal (DVal v))) \/
  (exists val, In (n, val) enums /\ MetaEnum.skipped uc n val = false) ->
  exists v, attrs_get n (MetaEnum.class_dict uc ns enums) = Some (AVal (DVal v)).
Proof.
  intros Hname.
  induction enums as [| [n0 val0] enums IH]; intros Hnorm ns H.
  - destruct H as [H | (val & [] & _)]. exact H.
  - assert (Hnorm' : forall n' val, In (n', val) enums ->
              MetaEnum.skipped uc n' val = false ->
              exists item, MetaEnum.normalize n' val = Ok item).
    { intros n' val Hin. apply Hnorm. right. exact Hin. }
    simpl. destruct (MetaEnum.skipped uc n0 val0) eqn:Hs.
    + apply (IH Hnorm'). destruct H as [H | (val & [Heq | Hin] & Hsv)]; [auto | | eauto].
      injection Heq as -> ->. rewrite Hs in Hsv. discriminate.
    + destruct (Hnorm n0 val0 (or_introl eq_refl) Hs) as [item Hn]. rewrite Hn.
      destruct (String.eqb n0 "__name__") eqn:En.
      * apply (IH Hnorm'). destruct H as [H | (val & [Heq | Hin] & Hsv)]; [auto | | eauto].
        injection Heq as -> ->. apply String.eqb_eq in En. contradiction.
      * apply (IH Hnorm'). destruct H as [(v & Hv) | (val & [Heq | Hin] & Hsv)].
        -- left. rewrite attrs_get_set. destruct (String.eqb n0 n); eauto.
        -- injection Heq as -> ->. left. rewrite attrs_get_set, String.eqb_refl. eauto.
        -- right. eauto.
Qed.

(** X15: line 44 makes the name of every entry that a class declares a
    class attribute with the key as its value, which hides a class
    method of [Enum] of the same name: a class that declares an entry
    named [keys] raises [TypeError] in [max_length()] and
    [next_available_key()], and one that declares an entry named
    [verbose] raises [TypeError] in [get], [random()] and
    [rest_as_json()]. *)
Theorem X15_entry_hides_method (permissive : bool) (cname : string)
    (bases : list (option registry)) (mro_rest : list namespace)
    (attrs : list (string * attr)) (cls : pyclass)
    (uc : bool) (enums : list (string * attr)) (n : string) (val : attr)
    (Hok : MetaEnum.new_class permissive cname bases mro_rest attrs = Ok cls)
    (Hd : MetaEnum.declared cname attrs = Ok (uc, enums))
    (Hin : In (n, val) enums)
    (Hs : MetaEnum.skipped uc n val = false)
    (Hname : n <> "__name__") :
  class_getattr cls n = NotCallable /\
  (n = "keys" ->
     Enum.max_length cls = Some (Raise TypeError) /\
     Enum.next_available_key cls = Some (Raise TypeError)) /\
  (n = "verbose" ->
     (forall k default, Enum.get cls k default = Some (Raise TypeError)) /\
     (forall seed, Enum.random cls seed = Some (Raise TypeError)) /\
     Enum.rest_as_json cls = Some (Raise TypeError)).
Proof.
  assert (Hattr : class_getattr cls n = NotCallable).
  { unfold MetaEnum.new_class, MetaEnum.__init__ in Hok.
    destruct (MetaEnum.merge_bases permissive [] bases) as [acc |]; simpl in Hok;
      [| discriminate].
    rewrite Hd in Hok. simpl in Hok.
    destruct (MetaEnum.register permissive uc acc enums) as [r |] eqn:R; simpl in Hok;
      [| discriminate].
    injection Hok as <-. unfold class_getattr. cbn [cls_mro mro_get].
    destruct (@class_dict_set uc n enums Hname (register_ok_normalize _ _ _ _ R) attrs)
      as [v Hv].
    { right. exists val. auto. }
    rewrite Hv. reflexivity. }
  split; [exact Hattr |]. split.
  - intros ->. unfold Enum.max_length, Enum.next_available_key, call_method.
    rewrite Hattr. split; reflexivity.
  - intros ->. unfold Enum.get, Enum.random, Enum.rest_as_json, call_method.
    rewrite Hattr. repeat split; reflexivity.
Qed.

(** X15, at the class declared by [keys = 1]. *)
Lemma X15_entry_hides_method_witness :
  let attrs := [("keys", AVal (DVal (VInt 1)))] in
  let cls := mkClass [[("keys", AVal (DVal (VInt 1)))]]
               [(VInt 1, mkEnumItem (VInt 1) (VStr "keys") (VStr "keys") VNone (MBag []))] in
  MetaEnum.new_class false "T" [Some []] [] attrs = Ok cls /\
  MetaEnum.declared "T" attrs = Ok (true, attrs) /\
  Enum.keys (cls_item_dict cls) = [VInt 1] /\
  class_getattr cls "keys" = NotCallable /\
  Enum.max_length cls = Some (Raise TypeError) /\
  Enum.next_available_key cls = Some (Raise TypeError).
Proof.
  intros attrs cls.
  assert (Hok : MetaEnum.new_class false "T" [Some []] [] attrs = Ok cls) by reflexivity.
  assert (Hd : MetaEnum.declared "T" attrs = Ok (true, attrs)) by reflexivity.
  assert (Hin : In ("keys", AVal (DVal (VInt 1))) attrs) by (left; reflexivity).
  assert (Hname : "keys" <> "__name__") by discriminate.
  destruct (@X15_entry_hides_method false "T" [Some []] [] attrs cls true attrs "keys"
              (AVal (DVal (VInt 1))) Hok Hd Hin eq_refl Hname) as (H1 & H2 & _).
  destruct (H2 eq_refl) as [H3 H4].
  split; [exact Hok |]. split; [exact Hd |]. split; [reflexivity |].
  split; [exact H1 |]. split; [exact H3 | exact H4].
Defined.

(** X16: a name that no class after the new class has before [Enum],
    that the body does not have and that no pair registered by line 44
    has, is not bound by the declaration: the class methods of [Enum]
    that the queries call stay those of [Enum]. *)
Theorem X16_method_not_hidden (permissive : bool) (cname : string)
    (bases : list (option registry)) (mro_rest : list namespace)
    (attrs : list (string * attr)) (cls : pyclass)
    (uc : bool) (enums : list (string * attr)) (n : string)
    (Hok : MetaEnum.new_class permissive cname bases mro_rest attrs = Ok cls)
    (Hd : MetaEnum.declared cname attrs = Ok (uc, enums))
    (Hbody : attrs_get n attrs = None)
    (Hpairs : forall val, In (n, val) enums -> MetaEnum.skipped uc n val = true)
    (Hrest : mro_get n mro_rest = None) :
  class_getattr cls n = EnumMethod.
Proof.
  unfold MetaEnum.new_class in Hok.
  destruct (MetaEnum.__init__ permissive cname bases attrs) as [r |]; simpl in Hok;
    [| discriminate].
  rewrite Hd in Hok. simpl in Hok. injection Hok as <-.
  unfold class_getattr. cbn [cls_mro mro_get].
  rewrite (class_dict_unset uc n enums attrs Hpairs), Hbody, Hrest. reflexivity.
Qed.

(** X16, at the class of [A = 1] with a method [f], for the name
    [keys]. *)
Lemma X16_method_not_hidden_witness :
  let attrs := [("A", AVal (DVal (VInt 1))); ("f", AVal DRoutine)] in
  exists cls,
    MetaEnum.new_class false "T" [Some []] [] attrs = Ok cls /\
    class_getattr cls "keys" = EnumMethod /\
    Enum.next_available_key cls = Some (Ok (VInt 2)).
Proof.
  intros attrs. eexists.
  assert (Hok : MetaEnum.new_class false "T" [Some []] [] attrs = Ok _) by reflexivity.
  split; [exact Hok |]. split; [| reflexivity].
  apply (@X16_method_not_hidden false "T" [Some []] [] attrs _ true attrs "keys" Hok
           eq_refl eq_refl); [| reflexivity].
  intros val [Heq | [Heq | []]]; discriminate Heq.
Defined.
